(** * labscript_devices: registering and looking up BLACS tabs and runviewer parsers

    A shallow embedding of [labscript_devices/__init__.py]: the decorator
    registers ([ClassRegister]), the deprecated decorators, the name resolver
    ([_import_class_by_fullname]), the deferred registries filled by
    [register_classes], the populator ([populate_registry]) and the two lookup
    functions ([get_BLACS_tab], [get_runviewer_parser]).

    Python state is threaded explicitly: every function of the module is a
    computation in a state-and-exception monad over a [World] that holds the
    module's globals, [sys.modules], the class objects, [sys.stderr] and the
    warnings that were issued. What the module takes from outside (the import
    system, the directory tree, [__main__.__file__]) is an [Env]. The library
    functions it calls ([str.split], [os.path], [importlib.import_module],
    [imp.load_module], [warnings.warn]) follow Python 3 on a POSIX system. *)

From stdpp Require Import base option list strings gmap fin_maps.
From Stdlib Require Import Ascii String ZArith Lia.

Local Open Scope string_scope.
Local Open Scope list_scope.

(** ** Python string operations used by the module *)

Module PyStr.

(** [s.split(sep)] for a one-character separator: never the empty list. *)
Fixpoint split (sep : ascii) (s : string) : list string :=
  match s with
  | EmptyString => [EmptyString]
  | String c s' =>
      if Ascii.eqb c sep then EmptyString :: split sep s'
      else match split sep s' with
           | [] => [String c EmptyString]
           | h :: t => String c h :: t
           end
  end.

(** [sep.join(l)] *)
Fixpoint join (sep : string) (l : list string) : string :=
  match l with
  | [] => EmptyString
  | [x] => x
  | x :: t => x +:+ sep +:+ join sep t
  end.

(** [l[-1]]: [None] stands for the IndexError of an empty list. *)
Fixpoint last_item {A} (l : list A) : option A :=
  match l with
  | [] => None
  | [x] => Some x
  | _ :: t => last_item t
  end.

(** [l[:-1]] *)
Fixpoint but_last {A} (l : list A) : list A :=
  match l with
  | [] => []
  | [x] => []
  | x :: t => x :: but_last t
  end.

Fixpoint chars (s : string) : list ascii :=
  match s with
  | EmptyString => []
  | String c s' => c :: chars s'
  end.

Definition has_char (c : ascii) (s : string) : bool :=
  existsb (Ascii.eqb c) (chars s).

(** [s.startswith(p)], returning the rest of [s] after [p]. *)
Fixpoint strip_prefix (p s : string) : option string :=
  match p, s with
  | EmptyString, _ => Some s
  | String a p', String b s' => if Ascii.eqb a b then strip_prefix p' s' else None
  | String _ _, EmptyString => None
  end.

Definition startswith (p s : string) : bool :=
  match strip_prefix p s with Some _ => true | None => false end.

(** [s.split(sep, 1)] for a non-empty separator string: [None] when [sep]
    does not occur (Python then returns the one-element list [[s]]). *)
Fixpoint split_once (sep s : string) : option (string * string) :=
  match strip_prefix sep s with
  | Some rest => Some (EmptyString, rest)
  | None =>
      match s with
      | EmptyString => None
      | String c s' =>
          match split_once sep s' with
          | Some (a, b) => Some (String c a, b)
          | None => None
          end
      end
  end.

(** [s.replace(a, b)] for one-character [a] and [b]. *)
Fixpoint replace (a b : ascii) (s : string) : string :=
  match s with
  | EmptyString => EmptyString
  | String c s' => String (if Ascii.eqb c a then b else c) (replace a b s')
  end.

(** The number of leading occurrences of [c], and the string without them. *)
Fixpoint lstrip_count (c : ascii) (s : string) : nat * string :=
  match s with
  | String d s' => if Ascii.eqb d c then let '(n, r) := lstrip_count c s' in (S n, r)
                   else (O, s)
  | EmptyString => (O, s)
  end.

(** [s.rfind(c)]: the index of the last occurrence, or -1. *)
Fixpoint rfind_from (i : Z) (c : ascii) (s : string) (acc : Z) : Z :=
  match s with
  | EmptyString => acc
  | String d s' => rfind_from (i + 1) c s' (if Ascii.eqb d c then i else acc)
  end.

Definition rfind (c : ascii) (s : string) : Z := rfind_from 0 c s (-1).

(** [s[i:j]] for [0 <= i]. *)
Definition slice (i j : Z) (s : string) : string :=
  String.substring (Z.to_nat i) (Z.to_nat (j - i)) s.

Definition slice_from (i : Z) (s : string) : string :=
  String.substring (Z.to_nat i) (String.length s - Z.to_nat i) s.

End PyStr.

(** ** [os.path] (posixpath) *)

Module os_path.

Definition sep : ascii := "/"%char.
Definition extsep : ascii := "."%char.

(** [i = p.rfind(sep) + 1; return p[i:]] *)
Definition basename (p : string) : string :=
  PyStr.slice_from (PyStr.rfind sep p + 1) p.

(** [genericpath._splitext]: the extension starts at the last dot of the last
    path component, leading dots of that component not counted. *)
Definition splitext (p : string) : string * string :=
  let sepIndex := PyStr.rfind sep p in
  let dotIndex := PyStr.rfind extsep p in
  if (sepIndex <? dotIndex)%Z then
    if forallb (Ascii.eqb extsep) (PyStr.chars (PyStr.slice (sepIndex + 1) dotIndex p))
    then (p, EmptyString)
    else (PyStr.slice 0 dotIndex p, PyStr.slice_from dotIndex p)
  else (p, EmptyString).

(** [os.path.join(a, b)] *)
Definition join (a b : string) : string :=
  if PyStr.startswith "/" b then b
  else match PyStr.last_item (PyStr.chars a) with
       | None => b
       | Some c => if Ascii.eqb c sep then a +:+ b else a +:+ "/" +:+ b
       end.

End os_path.

(** ** Python values, exceptions and module code *)

(** The values the registries and module namespaces hold: [None], a string,
    or a reference to a class object. *)
Inductive PyVal :=
| VNone
| VStr (s : string)
| VClass (c : nat).

#[global] Instance PyVal_eq_dec : EqDecision PyVal.
Proof. solve_decision. Defined.

(** The built-in exception classes the module meets. *)
Inductive ExnClass :=
| BaseException | Exception | ImportError | ModuleNotFoundError | AttributeError
| LookupError | KeyError | IndexError | ValueError | RuntimeError | TypeError.

#[global] Instance ExnClass_eq_dec : EqDecision ExnClass.
Proof. solve_decision. Defined.

(** The direct base class in Python's exception hierarchy. *)
Definition exn_base (c : ExnClass) : option ExnClass :=
  match c with
  | BaseException => None
  | Exception => Some BaseException
  | ModuleNotFoundError => Some ImportError
  | KeyError | IndexError => Some LookupError
  | ImportError | AttributeError | LookupError | ValueError | RuntimeError | TypeError =>
      Some Exception
  end.

(** [issubclass(c, d)]: [d] is [c] or one of its bases; no chain of bases in
    the hierarchy above is longer than three. *)
Fixpoint issubclass_upto (depth : nat) (c d : ExnClass) : bool :=
  bool_decide (c = d)
  || match depth, exn_base c with
     | S n, Some b => issubclass_upto n b d
     | _, _ => false
     end.

Definition issubclass : ExnClass → ExnClass → bool := issubclass_upto 3.

Record exn := Raise { exn_class : ExnClass; exn_msg : string }.

#[global] Instance exn_eq_dec : EqDecision exn.
Proof. solve_decision. Defined.

(** The decorators this package exports. *)
Inductive Decorator :=
| Deco_BLACS_tab | Deco_runviewer_parser | Deco_labscript_device | Deco_BLACS_worker.

(** The top-level code of a module, as far as this package can observe it:
    class definitions (with the package's decorators, in the order they are
    applied), calls to [register_classes], and a failure. The code of the
    modules it imports counts as its own; it does not call the lookup
    functions. *)
Inductive Stmt :=
| SClassDef (cname : string) (decorators : list Decorator)
| SRegisterClasses (labscript_device_name : string) (tab parser : PyVal)
| SRaise (e : exn).

(** A class object: [__name__], [__module__] and the attributes set on it. *)
Record ClassObj := MkClass {
  cls_name : string;
  cls_module : string;
  cls_attrs : gmap string PyVal
}.

(** An instance of [ClassRegister]. *)
Record ClassRegister := MkRegister {
  registered_classes : gmap string nat;
  instancename : string
}.

(** The two instances of [ClassRegister] of the module. *)
Inductive RegisterId := The_BLACS_tab | The_runviewer_parser.

(** One triple of [os.walk(LABSCRIPT_DEVICES_DIR)]: the folder (as
    [os.path.abspath] gives it), its file names, and the code of its
    [register_classes.py] when it has one. *)
Record WalkEntry := MkWalk {
  walk_folder : string;
  walk_filenames : list string;
  walk_register_classes : list Stmt
}.

(** What the module reads and never writes. *)
Record Env := MkEnv {
  labscript_suite_install_dir : string;
  importable : gmap string (list Stmt);   (* absolute module name -> its code *)
  os_walk : list WalkEntry;
  main_file : option string               (* [__main__.__file__] *)
}.

(** [__name__] of the module. *)
Definition __name__ : string := "labscript_devices".

(** The interpreter state and the module's globals. [walks] counts the calls
    of [os.walk]. *)
Record World := MkWorld {
  sys_modules : gmap string (gmap string PyVal);
  classes : list ClassObj;
  stderr : list string;
  warnings : list (string * string);
  walks : nat;
  BLACS_tab : ClassRegister;
  runviewer_parser : ClassRegister;
  BLACS_tab_registry : gmap string PyVal;
  runviewer_parser_registry : gmap string PyVal
}.

(** [ClassRegister.__init__] *)
Definition ClassRegister___init__ (name : string) : ClassRegister :=
  MkRegister ∅ name.

(** The state after the module itself has been imported. Of its namespace
    only [__name__] is kept: its functions and registers are no [PyVal]. *)
Definition init_world : World :=
  {| sys_modules := {[ __name__ := {[ "__name__" := VStr __name__ ]} ]};
     classes := [];
     stderr := [];
     warnings := [];
     walks := 0;
     BLACS_tab := ClassRegister___init__ "BLACS_tab";
     runviewer_parser := ClassRegister___init__ "runviewer_parser";
     BLACS_tab_registry := ∅;
     runviewer_parser_registry := ∅ |}.

Definition set_sys_modules (f : gmap string (gmap string PyVal) → gmap string (gmap string PyVal))
    (w : World) : World :=
  MkWorld (f (sys_modules w)) (classes w) (stderr w) (warnings w) (walks w)
          (BLACS_tab w) (runviewer_parser w) (BLACS_tab_registry w) (runviewer_parser_registry w).

Definition set_classes (f : list ClassObj → list ClassObj) (w : World) : World :=
  MkWorld (sys_modules w) (f (classes w)) (stderr w) (warnings w) (walks w)
          (BLACS_tab w) (runviewer_parser w) (BLACS_tab_registry w) (runviewer_parser_registry w).

Definition set_stderr (f : list string → list string) (w : World) : World :=
  MkWorld (sys_modules w) (classes w) (f (stderr w)) (warnings w) (walks w)
          (BLACS_tab w) (runviewer_parser w) (BLACS_tab_registry w) (runviewer_parser_registry w).

Definition set_warnings (f : list (string * string) → list (string * string)) (w : World) : World :=
  MkWorld (sys_modules w) (classes w) (stderr w) (f (warnings w)) (walks w)
          (BLACS_tab w) (runviewer_parser w) (BLACS_tab_registry w) (runviewer_parser_registry w).

Definition set_walks (f : nat → nat) (w : World) : World :=
  MkWorld (sys_modules w) (classes w) (stderr w) (warnings w) (f (walks w))
          (BLACS_tab w) (runviewer_parser w) (BLACS_tab_registry w) (runviewer_parser_registry w).

Definition get_register (self : RegisterId) (w : World) : ClassRegister :=
  match self with
  | The_BLACS_tab => BLACS_tab w
  | The_runviewer_parser => runviewer_parser w
  end.

Definition set_register (self : RegisterId) (f : ClassRegister → ClassRegister) (w : World) : World :=
  match self with
  | The_BLACS_tab =>
      MkWorld (sys_modules w) (classes w) (stderr w) (warnings w) (walks w)
              (f (BLACS_tab w)) (runviewer_parser w)
              (BLACS_tab_registry w) (runviewer_parser_registry w)
  | The_runviewer_parser =>
      MkWorld (sys_modules w) (classes w) (stderr w) (warnings w) (walks w)
              (BLACS_tab w) (f (runviewer_parser w))
              (BLACS_tab_registry w) (runviewer_parser_registry w)
  end.

Definition set_BLACS_tab_registry (f : gmap string PyVal → gmap string PyVal) (w : World) : World :=
  MkWorld (sys_modules w) (classes w) (stderr w) (warnings w) (walks w)
          (BLACS_tab w) (runviewer_parser w) (f (BLACS_tab_registry w)) (runviewer_parser_registry w).

Definition set_runviewer_parser_registry (f : gmap string PyVal → gmap string PyVal) (w : World) : World :=
  MkWorld (sys_modules w) (classes w) (stderr w) (warnings w) (walks w)
          (BLACS_tab w) (runviewer_parser w) (BLACS_tab_registry w) (f (runviewer_parser_registry w)).

(** ** The state-and-exception monad *)

Inductive Result (A : Type) :=
| Ok (a : A)
| Err (e : exn).
Arguments Ok {A} a.
Arguments Err {A} e.

Definition M (A : Type) : Type := World → Result A * World.

Definition ret {A} (a : A) : M A := λ w, (Ok a, w).

Definition bind {A B} (m : M A) (k : A → M B) : M B :=
  λ w, match m w with
       | (Ok a, w') => k a w'
       | (Err e, w') => (Err e, w')
       end.

Definition raise {A} (c : ExnClass) (msg : string) : M A := λ w, (Err (Raise c msg), w).

Definition reraise {A} (e : exn) : M A := λ w, (Err e, w).

Definition gets {A} (f : World → A) : M A := λ w, (Ok (f w), w).

Definition modify (f : World → World) : M unit := λ w, (Ok tt, f w).

(** [try: m  except c: h e] *)
Definition try_except {A} (m : M A) (c : ExnClass) (h : exn → M A) : M A :=
  λ w, match m w with
       | (Ok a, w') => (Ok a, w')
       | (Err e, w') => if issubclass (exn_class e) c then h e w' else (Err e, w')
       end.

Declare Scope py_scope.
Delimit Scope py_scope with py.
Notation "x <- m ;; k" := (bind m (λ x, k))
  (at level 100, m at next level, right associativity) : py_scope.
Notation "m ;;; k" := (bind m (λ _, k))
  (at level 100, right associativity) : py_scope.
Local Open Scope py_scope.

(** ** The module *)

Section Program.
Context (E : Env).

(** *** Objects: classes and modules *)

Definition get_class (cls : nat) : M ClassObj :=
  λ w, match classes w !! cls with
       | Some o => (Ok o, w)
       | None => (Err (Raise BaseException "invalid class reference"), w)
       end.

(** [cls.attr = v] *)
Definition setattr_class (cls : nat) (attr : string) (v : PyVal) : M unit :=
  o <- get_class cls ;;
  modify (set_classes
            (λ h, <[cls := MkClass (cls_name o) (cls_module o) (<[attr := v]> (cls_attrs o))]> h)).

(** A [class] statement in module [modname]: a fresh class object. *)
Definition new_class (cname modname : string) : M nat :=
  cls <- gets (λ w, List.length (classes w)) ;;
  modify (set_classes (λ h, h ++ [MkClass cname modname ∅])) ;;;
  ret cls.

(** [setattr(module, attr, v)] for the module of that name in [sys.modules]. *)
Definition setattr_module (m attr : string) (v : PyVal) : M unit :=
  modify (set_sys_modules (λ sm, <[m := <[attr := v]> (default ∅ (sm !! m))]> sm)).

(** [getattr(module, attr)] *)
Definition getattr_module (m attr : string) : M PyVal :=
  sm <- gets sys_modules ;;
  match sm !! m ≫= (λ ns, ns !! attr) with
  | Some v => ret v
  | None => raise AttributeError ("module '" +:+ m +:+ "' has no attribute '" +:+ attr +:+ "'")
  end.

(** [l[-1]] *)
Definition index_last {A} (l : list A) : M A :=
  match PyStr.last_item l with
  | Some x => ret x
  | None => raise IndexError "list index out of range"
  end.

(** *** [ClassRegister] *)

(** [self.registered_classes[name] = cls] *)
Definition store_class (name : string) (cls : nat) (r : ClassRegister) : ClassRegister :=
  MkRegister (<[name := cls]> (registered_classes r)) (instancename r).

(** [ClassRegister.__call__(self, cls)]. [name] is the value of
    [cls.labscript_device_class_name], which the method has just set. *)
Definition ClassRegister___call__ (self : RegisterId) (cls : nat) : M nat :=
  o <- get_class cls ;;
  name <- index_last (PyStr.split "." (cls_module o)) ;;
  setattr_class cls "labscript_device_class_name" (VStr name) ;;;
  name <- (if decide (name = "__main__") then
             match main_file E with
             | Some file =>
                 let name := fst (os_path.splitext (os_path.basename file)) in
                 setattr_class cls "labscript_device_class_name" (VStr name) ;;;
                 ret name
             | None =>
                 raise RuntimeError
                   ("Can't figure out what the file or module this class is being defined in. " +:+
                    "If you are testing, please test from a more standard environment, such as " +:+
                    "executing a script from the command line, or if you are using an interactive session, " +:+
                    "writing your code in a separate module and importing it.")
             end
           else ret name) ;;
  modify (set_register self (store_class name cls)) ;;;
  ret cls.

(** *** The deprecated decorators *)

Definition null_decorator {A} (name : string) (cls : A) : M A :=
  let msg := "@" +:+ name +:+ " decorator is unnecessary and can be removed" in
  modify (set_warnings (λ l, l ++ [("UserWarning", msg)])) ;;;
  ret cls.

Definition deprecated_decorator (name : string) {A} : A → M A := null_decorator name.

Definition labscript_device {A} : A → M A := deprecated_decorator "labscript_device".
Definition BLACS_worker {A} : A → M A := deprecated_decorator "BLACS_worker".

(** *** [register_classes] *)

Definition register_classes (labscript_device_name : string) (tab parser : PyVal) : M unit :=
  modify (set_BLACS_tab_registry (λ d, <[labscript_device_name := tab]> d)) ;;;
  modify (set_runviewer_parser_registry (λ d, <[labscript_device_name := parser]> d)).

(** *** Running module code, [importlib.import_module] and [imp.load_module] *)

Definition apply_decorator (d : Decorator) (cls : nat) : M nat :=
  match d with
  | Deco_BLACS_tab => ClassRegister___call__ The_BLACS_tab cls
  | Deco_runviewer_parser => ClassRegister___call__ The_runviewer_parser cls
  | Deco_labscript_device => labscript_device cls
  | Deco_BLACS_worker => BLACS_worker cls
  end.

Fixpoint apply_decorators (ds : list Decorator) (cls : nat) : M nat :=
  match ds with
  | [] => ret cls
  | d :: ds' => cls' <- apply_decorator d cls ;; apply_decorators ds' cls'
  end.

Definition exec_stmt (modname : string) (s : Stmt) : M unit :=
  match s with
  | SClassDef cname decorators =>
      cls <- new_class cname modname ;;
      cls <- apply_decorators decorators cls ;;
      setattr_module modname cname (VClass cls)
  | SRegisterClasses name tab parser => register_classes name tab parser
  | SRaise e => reraise e
  end.

Fixpoint exec_body (modname : string) (body : list Stmt) : M unit :=
  match body with
  | [] => ret tt
  | s :: body' => exec_stmt modname s ;;; exec_body modname body'
  end.

(** Run [body] as the module [name]: a module already in [sys.modules] is
    run again in its namespace (a reload); a new one is entered into
    [sys.modules] first and taken out again when its code fails. *)
Definition load_module (name : string) (body : list Stmt) : M string :=
  fresh <- gets (λ w, bool_decide (sys_modules w !! name = None)) ;;
  (if fresh : bool
   then modify (set_sys_modules (λ sm, <[name := {[ "__name__" := VStr name ]}]> sm))
   else ret tt) ;;;
  try_except (exec_body name body) BaseException
    (λ e, (if fresh : bool then modify (set_sys_modules (λ sm, delete name sm)) else ret tt) ;;;
          reraise e) ;;;
  ret name.

(** [importlib._bootstrap._resolve_name] *)
Definition _resolve_name (name package : string) (level : nat) : M string :=
  let parts := PyStr.split "." package in
  if (List.length parts <? level)%nat
  then raise ImportError "attempted relative import beyond top-level package"
  else
    let base := PyStr.join "." (take (List.length parts - (level - 1)) parts) in
    ret (if decide (name = "") then base else base +:+ "." +:+ name).

(** Find the module in [sys.modules] or load it. Packages are not imported
    before their submodules here: [importable] maps a full dotted name to all
    the code that runs when it is first imported. *)
Definition _find_and_load (name : string) : M string :=
  sm <- gets sys_modules ;;
  match sm !! name with
  | Some _ => ret name
  | None =>
      match importable E !! name with
      | Some body => load_module name body
      | None => raise ModuleNotFoundError ("No module named '" +:+ name +:+ "'")
      end
  end.

(** [importlib.import_module(name, package)]; the result is the module's key
    in [sys.modules]. *)
Definition import_module (name : string) (package : option string) : M string :=
  let '(level, rest) := PyStr.lstrip_count "." name in
  match level with
  | O => if decide (name = "") then raise ValueError "Empty module name"
         else _find_and_load name
  | S _ =>
      match package with
      | None =>
          raise TypeError
            ("the 'package' argument is required to perform a relative import for '" +:+ name +:+ "'")
      | Some package => name <- _resolve_name rest package level ;; _find_and_load name
      end
  end.

(** [ClassRegister.__getitem__(self, name)] *)
Definition ClassRegister___getitem__ (self : RegisterId) (name : string) : M PyVal :=
  try_except (import_module ("." +:+ name) (Some __name__)) ImportError
    (λ e,
       modify (set_stderr
                 (λ out, out ++
                    ["Error importing module " +:+ __name__ +:+ "." +:+ name +:+
                     " whilst looking for classes for device " +:+ name +:+ ". " +:+
                     "Check that the module exists, is named correctly, and can be imported with no errors. " +:+
                     "Full traceback follows:
"])) ;;;
       reraise e) ;;;
  r <- gets (get_register self) ;;
  match registered_classes r !! name with
  | Some cls => ret (VClass cls)
  | None =>
      raise ValueError
        ("No class decorated as a " +:+ instancename r +:+ " found in module " +:+
         (__name__ +:+ "." +:+ name) +:+ ", " +:+
         "Did you forget to decorate the class definition with @" +:+ instancename r +:+ "?")
  end.

(** *** The name resolver *)

Definition _import_class_by_fullname (fullname : PyVal) : M PyVal :=
  match fullname with
  | VStr fullname =>
      let split := PyStr.split "." fullname in
      let module_name := PyStr.join "." (PyStr.but_last split) in
      class_name <- index_last split ;;
      module <- import_module module_name None ;;
      getattr_module module class_name
  | VNone => raise AttributeError "'NoneType' object has no attribute 'split'"
  | VClass cls =>
      o <- get_class cls ;;
      raise AttributeError ("type object '" +:+ cls_name o +:+ "' has no attribute 'split'")
  end.

(** *** [populate_registry] *)

Fixpoint for_each {A} (f : A → M unit) (l : list A) : M unit :=
  match l with
  | [] => ret tt
  | x :: l' => f x ;;; for_each f l'
  end.

(** The body of the loop of [populate_registry] for one triple of the walk. *)
Definition populate_folder (entry : WalkEntry) : M unit :=
  if bool_decide ("register_classes.py" ∈ walk_filenames entry) then
    if decide (labscript_suite_install_dir E = "") then raise ValueError "empty separator"
    else
      match PyStr.split_once (labscript_suite_install_dir E) (walk_folder entry) with
      | None => raise IndexError "list index out of range"
      | Some (_, relfolder) =>
          let module_name :=
            PyStr.replace os_path.sep "." (os_path.join relfolder "register_classes") in
          load_module module_name (walk_register_classes entry) ;;;
          ret tt
      end
  else ret tt.

Definition populate_registry : M unit :=
  modify (set_walks S) ;;;
  for_each populate_folder (os_walk E).

(** *** The lookup functions *)

Definition get_BLACS_tab (name : string) : M PyVal :=
  registry <- gets BLACS_tab_registry ;;
  (if decide (registry = ∅) then populate_registry else ret tt) ;;;
  registry <- gets BLACS_tab_registry ;;
  match registry !! name with
  | Some fullname => _import_class_by_fullname fullname
  | None => ClassRegister___getitem__ The_BLACS_tab name
  end.

Definition get_runviewer_parser (name : string) : M PyVal :=
  registry <- gets runviewer_parser_registry ;;
  (if decide (registry = ∅) then populate_registry else ret tt) ;;;
  registry <- gets runviewer_parser_registry ;;
  match registry !! name with
  | Some fullname => _import_class_by_fullname fullname
  | None => ClassRegister___getitem__ The_runviewer_parser name
  end.

End Program.

(** ** Clients of the module *)

(** A call of one of the module's public functions, or a class statement, by
    code that uses the module. *)
Inductive Call :=
| Call_class (cname modname : string)
| Call_decorator (d : Decorator) (cls : nat)
| Call_register_classes (labscript_device_name : string) (tab parser : PyVal)
| Call_populate_registry
| Call_get_BLACS_tab (name : string)
| Call_get_runviewer_parser (name : string).

Definition run_call (E : Env) (c : Call) : M unit :=
  match c with
  | Call_class cname modname => new_class cname modname ;;; ret tt
  | Call_decorator d cls => apply_decorator E d cls ;;; ret tt
  | Call_register_classes name tab parser => register_classes name tab parser
  | Call_populate_registry => populate_registry E
  | Call_get_BLACS_tab name => get_BLACS_tab E name ;;; ret tt
  | Call_get_runviewer_parser name => get_runviewer_parser E name ;;; ret tt
  end.

(** The state after a sequence of calls; the client goes on after a call that
    raised. *)
Fixpoint run_calls (E : Env) (cs : list Call) (w : World) : World :=
  match cs with
  | [] => w
  | c :: cs' => run_calls E cs' (run_call E c w).2
  end.

(** [register_classes] called for each triple of device name, tab path and
    parser path, in order. *)
Definition register_all (l : list (string * PyVal * PyVal)) : M unit :=
  for_each (λ '(name, tab, parser), register_classes name tab parser) l.

(** The two deferred registries hold the same device names. *)
Definition aligned (w : World) : Prop :=
  dom (BLACS_tab_registry w) = dom (runviewer_parser_registry w).

(** A small installation to run the module on: a device [FooDevice] in a
    subfolder with a [register_classes.py], a decorated tab in
    [labscript_devices/BarDevice.py], an undecorated one in [Baz.py]. *)
Definition demo_env (main : option string) : Env :=
  {| labscript_suite_install_dir := "/opt/suite";
     importable :=
       {[ "pkg.foo" := [SClassDef "FooTab" []];
          "labscript_devices.BarDevice" :=
            [SClassDef "BarTab" [Deco_labscript_device; Deco_BLACS_tab]];
          "labscript_devices.Baz" := [SClassDef "BazTab" []] ]};
     os_walk :=
       [MkWalk "/opt/suite/labscript_devices" ["__init__.py"] [];
        MkWalk "/opt/suite/labscript_devices/FooDevice" ["register_classes.py"]
               [SRegisterClasses "FooDevice" (VStr "pkg.foo.FooTab") VNone]];
     main_file := main |}.

(** A state in which [BarDevice] is registered under both mechanisms: the
    decorated class [BarTab] of [labscript_devices.BarDevice], and the path
    [pkg.foo.FooTab]. *)
Definition both_registered : World :=
  run_calls (demo_env None)
    [Call_get_BLACS_tab "BarDevice";
     Call_register_classes "BarDevice" (VStr "pkg.foo.FooTab") VNone]
    init_world.

(** ** Notions the properties are stated with *)

(** The class with the attribute [labscript_device_class_name] set to [name]. *)
Definition stamped (o : ClassObj) (name : string) : ClassObj :=
  MkClass (cls_name o) (cls_module o)
          (<["labscript_device_class_name" := VStr name]> (cls_attrs o)).

(** The lookup of a name after the registries were populated, when they were
    empty at the call. *)
Definition lookup_after_populate (E : Env) (self : RegisterId) (name : string) : M PyVal :=
  populate_registry E ;;;
  registry <- gets (match self with
                    | The_BLACS_tab => BLACS_tab_registry
                    | The_runviewer_parser => runviewer_parser_registry
                    end) ;;
  match registry !! name with
  | Some fullname => _import_class_by_fullname E fullname
  | None => ClassRegister___getitem__ E self name
  end.

(** ** Relations a computation maintains *)

(** [m] takes every state to a state [R]-related to it, whether it returns or
    raises. *)
Definition preserves {A} (R : relation World) (m : M A) : Prop :=
  ∀ w, R w (m w).2.

(** [R] is a preorder that no write to the interpreter state ([sys.modules],
    class objects, [stderr], warnings) or to a decorator register leaves. *)
Record Frame (R : relation World) : Prop := MkFrame {
  frame_preorder : PreOrder R;
  frame_sys_modules : ∀ f w, R w (set_sys_modules f w);
  frame_classes : ∀ f w, R w (set_classes f w);
  frame_stderr : ∀ f w, R w (set_stderr f w);
  frame_warnings : ∀ f w, R w (set_warnings f w);
  frame_register : ∀ self name cls w, R w (set_register self (store_class name cls) w)
}.

(** The relations used below: the walk counter is unchanged; the deferred
    registries keep their device names; aligned registries stay aligned; the
    decorator registers keep their names. *)
Definition same_walks : relation World := λ w w', walks w' = walks w.

Definition registries_grow : relation World :=
  λ w w', dom (BLACS_tab_registry w) ⊆ dom (BLACS_tab_registry w')
          ∧ dom (runviewer_parser_registry w) ⊆ dom (runviewer_parser_registry w').

Definition keeps_aligned : relation World := λ w w', aligned w → aligned w'.

Definition same_instancenames : relation World :=
  λ w w', ∀ self, instancename (get_register self w') = instancename (get_register self w).

(** ** Computations that do not read the decorator registers *)

(** Two states that differ at most in the decorator registers. *)
Definition same_but_registers (w1 w2 : World) : Prop :=
  sys_modules w1 = sys_modules w2 ∧ classes w1 = classes w2
  ∧ stderr w1 = stderr w2 ∧ warnings w1 = warnings w2 ∧ walks w1 = walks w2
  ∧ BLACS_tab_registry w1 = BLACS_tab_registry w2
  ∧ runviewer_parser_registry w1 = runviewer_parser_registry w2.

(** From two such states [m] gives the same result, or raises the same
    exception, and leaves two such states. *)
Definition ignores_registers {A} (m : M A) : Prop :=
  ∀ w1 w2, same_but_registers w1 w2 →
    (m w1).1 = (m w2).1 ∧ same_but_registers (m w1).2 (m w2).2.

(** ** More notions: footprints, growth, and two more installations *)

(** The other of the two decorator registers. *)
Definition other_register (self : RegisterId) : RegisterId :=
  match self with
  | The_BLACS_tab => The_runviewer_parser
  | The_runviewer_parser => The_BLACS_tab
  end.

(** What a call of the register [self] on the class [cls] may change: the
    class object [cls], and entries of [self], which it sets to [cls]. *)
Definition decorator_footprint (self : RegisterId) (cls : nat) : relation World :=
  λ w w',
    sys_modules w' = sys_modules w ∧ stderr w' = stderr w ∧ warnings w' = warnings w
    ∧ walks w' = walks w
    ∧ BLACS_tab_registry w' = BLACS_tab_registry w
    ∧ runviewer_parser_registry w' = runviewer_parser_registry w
    ∧ get_register (other_register self) w' = get_register (other_register self) w
    ∧ instancename (get_register self w') = instancename (get_register self w)
    ∧ List.length (classes w') = List.length (classes w)
    ∧ (∀ c, c ≠ cls → classes w' !! c = classes w !! c)
    ∧ (∀ k, registered_classes (get_register self w') !! k
            = registered_classes (get_register self w) !! k
            ∨ registered_classes (get_register self w') !! k = Some cls).

(** The decorator registers keep their device names. *)
Definition registers_grow : relation World :=
  λ w w', ∀ self, dom (registered_classes (get_register self w))
                  ⊆ dom (registered_classes (get_register self w')).

(** [sys.modules] keeps its modules. *)
Definition sys_modules_grow : relation World :=
  λ w w', dom (sys_modules w) ⊆ dom (sys_modules w').

(** A call of one of the two lookup functions. *)
Definition is_lookup (c : Call) : bool :=
  match c with
  | Call_get_BLACS_tab _ | Call_get_runviewer_parser _ => true
  | _ => false
  end.

(** The environment with another result of [os.walk]. *)
Definition with_os_walk (E : Env) (l : list WalkEntry) : Env :=
  MkEnv (labscript_suite_install_dir E) (importable E) l (main_file E).

Definition has_register_classes (entry : WalkEntry) : bool :=
  bool_decide ("register_classes.py" ∈ walk_filenames entry).

(** An installation whose second [register_classes.py] fails after the first
    has registered [FooDevice], and whose module [Bad] fails on import. *)
Definition broken_env : Env :=
  {| labscript_suite_install_dir := "/opt/suite";
     importable :=
       {[ "pkg.foo" := [SClassDef "FooTab" []];
          "labscript_devices.Bad" := [SRaise (Raise RuntimeError "boom")] ]};
     os_walk :=
       [MkWalk "/opt/suite/labscript_devices/FooDevice" ["register_classes.py"]
               [SRegisterClasses "FooDevice" (VStr "pkg.foo.FooTab") VNone];
        MkWalk "/opt/suite/labscript_devices/Broken" ["register_classes.py"]
               [SRaise (Raise RuntimeError "boom")];
        MkWalk "/opt/suite/labscript_devices/Late" ["register_classes.py"]
               [SRegisterClasses "LateDevice" (VStr "pkg.foo.FooTab") VNone]];
     main_file := None |}.

(** An installation with no [register_classes.py] at all: one decorated tab
    in [labscript_devices/BarDevice.py]. *)
Definition bare_env : Env :=
  {| labscript_suite_install_dir := "/opt/suite";
     importable :=
       {[ "labscript_devices.BarDevice" := [SClassDef "BarTab" [Deco_BLACS_tab]] ]};
     os_walk := [MkWalk "/opt/suite/labscript_devices" ["__init__.py"; "BarDevice.py"] []];
     main_file := None |}.

(** * Properties *)

(** ** Strings *)

Example split_dotted : PyStr.split "." "labscript_devices.PineBlaster" = ["labscript_devices"; "PineBlaster"].
Proof. reflexivity. Qed.

Example split_plain : PyStr.split "." "__main__" = ["__main__"].
Proof. reflexivity. Qed.

Example splitext_script :
  os_path.splitext (os_path.basename "/home/lab/PulseBlaster.py") = ("PulseBlaster", ".py").
Proof. reflexivity. Qed.

Example splitext_hidden : os_path.splitext (os_path.basename "/home/lab/.profile") = (".profile", "").
Proof. reflexivity. Qed.

Example splitext_two_dots : os_path.splitext "runs/archive.tar.gz" = ("runs/archive.tar", ".gz").
Proof. reflexivity. Qed.

Example splitext_dot_in_folder : os_path.splitext "lab.d/script" = ("lab.d/script", "").
Proof. reflexivity. Qed.

Example join_folder :
  PyStr.replace os_path.sep "." (os_path.join "/labscript_devices/Foo" "register_classes")
  = ".labscript_devices.Foo.register_classes".
Proof. reflexivity. Qed.

Example split_once_install :
  PyStr.split_once "/opt/suite" "/opt/suite/labscript_devices/Foo" = Some ("", "/labscript_devices/Foo").
Proof. reflexivity. Qed.

Lemma str_app_assoc (a b c : string) : (a +:+ b) +:+ c = a +:+ b +:+ c.
Proof.
  induction a as [|x a IH]; [done|].
  change (String x ((a +:+ b) +:+ c) = String x (a +:+ b +:+ c)).
  by rewrite IH.
Qed.

Lemma split_not_nil sep s : PyStr.split sep s ≠ [].
Proof.
  destruct s as [|c s]; simpl; [done|].
  destruct (Ascii.eqb c sep); [done|].
  by destruct (PyStr.split sep s).
Qed.

Lemma last_item_is_Some {A} (l : list A) : l ≠ [] → is_Some (PyStr.last_item l).
Proof.
  induction l as [|x [|y t] IH]; intros Hl; [done|by eexists|].
  apply IH. done.
Qed.

Lemma split_last_is_Some sep s : is_Some (PyStr.last_item (PyStr.split sep s)).
Proof. apply last_item_is_Some, split_not_nil. Qed.

Lemma join_cons2 sep x y t :
  PyStr.join sep (x :: y :: t) = x +:+ sep +:+ PyStr.join sep (y :: t).
Proof. reflexivity. Qed.

Lemma join_String sep c h t :
  PyStr.join sep (String c h :: t) = String c (PyStr.join sep (h :: t)).
Proof. destruct t; reflexivity. Qed.

(** Joining the pieces of a split gives the string back. *)
Lemma join_split c s : PyStr.join (String c EmptyString) (PyStr.split c s) = s.
Proof.
  induction s as [|d s IH]; simpl; [done|].
  destruct (Ascii.eqb d c) eqn:Hd.
  - apply Ascii.eqb_eq in Hd as ->.
    pose proof (split_not_nil c s) as Hne.
    destruct (PyStr.split c s) as [|h t] eqn:Hs; [done|].
    rewrite join_cons2, IH. reflexivity.
  - pose proof (split_not_nil c s) as Hne.
    destruct (PyStr.split c s) as [|h t] eqn:Hs; [done|].
    rewrite join_String, IH. reflexivity.
Qed.

(** A list with at least two items is joined from all but its last item and
    its last item. *)
Lemma join_but_last sep (l : list string) x :
  PyStr.last_item l = Some x → (2 ≤ List.length l)%nat →
  PyStr.join sep l = PyStr.join sep (PyStr.but_last l) +:+ sep +:+ x.
Proof.
  induction l as [|a [|b [|c t]] IH]; intros Hlast Hlen; simpl in Hlen; try lia.
  - simpl in Hlast. by simplify_eq.
  - rewrite join_cons2, IH; [|done|simpl; lia].
    change (PyStr.but_last (a :: b :: c :: t)) with (a :: PyStr.but_last (b :: c :: t)).
    destruct (PyStr.but_last (b :: c :: t)) as [|y ys] eqn:Hbl; [done|].
    rewrite join_cons2. by rewrite !str_app_assoc.
Qed.

Lemma has_char_cons c d s :
  PyStr.has_char c (String d s) = Ascii.eqb c d || PyStr.has_char c s.
Proof. reflexivity. Qed.

(** The pieces of a split do not contain the separator. *)
Lemma split_pieces_no_sep c s x :
  x ∈ PyStr.split c s → PyStr.has_char c x = false.
Proof.
  revert x. induction s as [|d s IH]; intros x; simpl.
  - intros ->%list_elem_of_singleton. reflexivity.
  - destruct (Ascii.eqb d c) eqn:Hd.
    + intros [->|Hx]%elem_of_cons; [reflexivity|by apply IH].
    + pose proof (split_not_nil c s) as Hne.
      destruct (PyStr.split c s) as [|h t] eqn:Hs; [done|].
      intros [->|Hx]%elem_of_cons.
      * rewrite has_char_cons, Ascii.eqb_sym, Hd. simpl. apply IH. by left.
      * apply IH. by right.
Qed.

Lemma last_item_elem_of {A} (l : list A) x : PyStr.last_item l = Some x → x ∈ l.
Proof.
  induction l as [|a [|b t] IH]; intros Hl; [done| |].
  - simpl in Hl. simplify_eq. by left.
  - right. by apply IH.
Qed.

(** A string with the separator in it splits into at least two pieces. *)
Lemma split_length_has_char c s :
  PyStr.has_char c s = true → (2 ≤ List.length (PyStr.split c s))%nat.
Proof.
  induction s as [|d s IH]; [done|].
  rewrite has_char_cons. simpl.
  pose proof (split_not_nil c s) as Hne.
  destruct (Ascii.eqb d c) eqn:Hd.
  - intros _. destruct (PyStr.split c s); [done|simpl; lia].
  - rewrite Ascii.eqb_sym, Hd. simpl. intros Hs. specialize (IH Hs).
    destruct (PyStr.split c s); simpl in *; lia.
Qed.

(** A string without the separator is the only piece of its split. *)
Lemma split_no_sep c s : PyStr.has_char c s = false → PyStr.split c s = [s].
Proof.
  induction s as [|d s IH]; [done|].
  rewrite has_char_cons. intros [Hd Hs]%orb_false_iff. simpl.
  rewrite Ascii.eqb_sym, Hd, (IH Hs). reflexivity.
Qed.

(** [fullname.split('.')] cuts at the last dot: the last piece has no dot, and
    the pieces before it, joined again, are what stands before the last dot. *)
Lemma split_at_last_dot fullname :
  ∃ class_name,
    PyStr.last_item (PyStr.split "." fullname) = Some class_name
    ∧ PyStr.has_char "." class_name = false
    ∧ (PyStr.has_char "." fullname = true →
       fullname = PyStr.join "." (PyStr.but_last (PyStr.split "." fullname)) +:+ "." +:+ class_name)
    ∧ (PyStr.has_char "." fullname = false →
       class_name = fullname ∧ PyStr.join "." (PyStr.but_last (PyStr.split "." fullname)) = "").
Proof.
  destruct (split_last_is_Some "." fullname) as [x Hx].
  exists x. split_and!; [done| | |].
  - eapply split_pieces_no_sep, last_item_elem_of, Hx.
  - intros Hdot. rewrite <- (join_split "." fullname) at 1.
    apply join_but_last; [done|by apply split_length_has_char].
  - intros Hdot. rewrite (split_no_sep _ _ Hdot) in Hx |- *. simpl in *. by simplify_eq.
Qed.

(** ** The monad *)

Section Preserves.
Context (R : relation World) (HP : PreOrder R).

Lemma preserves_ret {A} (a : A) : preserves R (ret a).
Proof. intros w. simpl. reflexivity. Qed.

Lemma preserves_raise {A} c msg : preserves R (@raise A c msg).
Proof. intros w. simpl. reflexivity. Qed.

Lemma preserves_reraise {A} e : preserves R (@reraise A e).
Proof. intros w. simpl. reflexivity. Qed.

Lemma preserves_gets {A} (f : World → A) : preserves R (gets f).
Proof. intros w. simpl. reflexivity. Qed.

Lemma preserves_modify f : (∀ w, R w (f w)) → preserves R (modify f).
Proof. intros Hf w. apply Hf. Qed.

Lemma preserves_bind {A B} (m : M A) (k : A → M B) :
  preserves R m → (∀ a, preserves R (k a)) → preserves R (bind m k).
Proof.
  intros Hm Hk w. unfold bind. specialize (Hm w).
  destruct (m w) as [[a|e] w1]; simpl in *; [|done].
  etransitivity; [exact Hm|apply Hk].
Qed.

Lemma preserves_try_except {A} (m : M A) c h :
  preserves R m → (∀ e, preserves R (h e)) → preserves R (try_except m c h).
Proof.
  intros Hm Hh w. unfold try_except. specialize (Hm w).
  destruct (m w) as [[a|e] w1]; simpl in *; [done|].
  destruct (issubclass _ _); [|done].
  etransitivity; [exact Hm|apply Hh].
Qed.

Lemma preserves_for_each {A} (f : A → M unit) l :
  (∀ x, preserves R (f x)) → preserves R (for_each f l).
Proof.
  intros Hf. induction l as [|x l IH]; simpl.
  - apply preserves_ret.
  - apply preserves_bind; [apply Hf|done].
Qed.

Lemma preserves_if {A} (b : bool) (m1 m2 : M A) :
  preserves R m1 → preserves R m2 → preserves R (if b then m1 else m2).
Proof. by destruct b. Qed.

Lemma preserves_if_decide {A} P `{!Decision P} (m1 m2 : M A) :
  preserves R m1 → preserves R m2 → preserves R (if decide P then m1 else m2).
Proof. by destruct (decide P). Qed.

End Preserves.


(** ** Every function of the module maintains a frame relation *)

Section FrameLemmas.
Context (E : Env) (R : relation World) (HR : Frame R).

Let HP : PreOrder R := frame_preorder R HR.

Ltac frame_step :=
  first
    [ apply (preserves_bind R HP); [|intros ?]
    | apply (preserves_ret R HP)
    | apply (preserves_raise R HP)
    | apply (preserves_reraise R HP)
    | apply (preserves_gets R HP)
    | apply (preserves_if R)
    | apply (preserves_if_decide R)
    | apply (preserves_try_except R HP); [|intros ?]
    | apply (preserves_modify R); intros ?;
      first [ apply (frame_sys_modules R HR) | apply (frame_classes R HR)
            | apply (frame_stderr R HR) | apply (frame_warnings R HR)
            | apply (frame_register R HR) ] ].

Lemma preserves_get_class cls : preserves R (get_class cls).
Proof. intros w. unfold get_class. destruct (classes w !! cls); simpl; apply HP. Qed.

Lemma preserves_setattr_class cls attr v : preserves R (setattr_class cls attr v).
Proof. unfold setattr_class. frame_step; [apply preserves_get_class|frame_step]. Qed.

Lemma preserves_new_class cname modname : preserves R (new_class cname modname).
Proof. unfold new_class. repeat frame_step. Qed.

Lemma preserves_setattr_module m attr v : preserves R (setattr_module m attr v).
Proof. unfold setattr_module. frame_step. Qed.

Lemma preserves_getattr_module m attr : preserves R (getattr_module m attr).
Proof. unfold getattr_module. frame_step; [frame_step|]. destruct (_ ≫= _); frame_step. Qed.

Lemma preserves_index_last {A} (l : list A) : preserves R (index_last l).
Proof. unfold index_last. destruct (PyStr.last_item l); frame_step. Qed.

Lemma preserves_ClassRegister___call__ self cls :
  preserves R (ClassRegister___call__ E self cls).
Proof.
  unfold ClassRegister___call__.
  frame_step; [apply preserves_get_class|].
  frame_step; [apply preserves_index_last|].
  frame_step; [apply preserves_setattr_class|].
  frame_step.
  - frame_step; [|frame_step].
    destruct (main_file E); [|frame_step].
    frame_step; [apply preserves_setattr_class|frame_step].
  - repeat frame_step.
Qed.

Lemma preserves_null_decorator {A} name (cls : A) : preserves R (null_decorator name cls).
Proof. unfold null_decorator. repeat frame_step. Qed.

Lemma preserves_apply_decorator d cls : preserves R (apply_decorator E d cls).
Proof.
  destruct d; simpl;
    first [apply preserves_ClassRegister___call__ | apply preserves_null_decorator].
Qed.

Lemma preserves_apply_decorators ds cls : preserves R (apply_decorators E ds cls).
Proof.
  revert cls. induction ds as [|d ds IH]; intros cls; simpl; [frame_step|].
  frame_step; [apply preserves_apply_decorator|apply IH].
Qed.

(** From here on [register_classes] must maintain [R] too. *)
Context (Hreg : ∀ name tab parser, preserves R (register_classes name tab parser)).

Lemma preserves_exec_stmt modname s : preserves R (exec_stmt E modname s).
Proof.
  destruct s; simpl; [|apply Hreg|frame_step].
  frame_step; [apply preserves_new_class|].
  frame_step; [apply preserves_apply_decorators|apply preserves_setattr_module].
Qed.

Lemma preserves_exec_body modname body : preserves R (exec_body E modname body).
Proof.
  induction body as [|s body IH]; simpl; [frame_step|].
  frame_step; [apply preserves_exec_stmt|apply IH].
Qed.

Lemma preserves_load_module name body : preserves R (load_module E name body).
Proof.
  unfold load_module. frame_step; [frame_step|].
  frame_step; [destruct a; frame_step|].
  frame_step; [|frame_step].
  frame_step; [apply preserves_exec_body|].
  frame_step; [destruct a; frame_step|frame_step].
Qed.

Lemma preserves__resolve_name name package level :
  preserves R (_resolve_name name package level).
Proof. unfold _resolve_name. destruct (_ <? _)%nat; frame_step. Qed.

Lemma preserves__find_and_load name : preserves R (_find_and_load E name).
Proof.
  unfold _find_and_load. frame_step; [frame_step|].
  destruct (_ !! _); [frame_step|].
  destruct (_ !! _); [apply preserves_load_module|frame_step].
Qed.

Lemma preserves_import_module name package : preserves R (import_module E name package).
Proof.
  unfold import_module. destruct (PyStr.lstrip_count _ _) as [[|level] rest].
  - frame_step; [frame_step|apply preserves__find_and_load].
  - destruct package; [|frame_step].
    frame_step; [apply preserves__resolve_name|apply preserves__find_and_load].
Qed.

Lemma preserves_ClassRegister___getitem__ self name :
  preserves R (ClassRegister___getitem__ E self name).
Proof.
  unfold ClassRegister___getitem__.
  frame_step.
  - frame_step; [apply preserves_import_module|]. repeat frame_step.
  - frame_step; [frame_step|]. destruct (_ !! _); frame_step.
Qed.

Lemma preserves__import_class_by_fullname fullname :
  preserves R (_import_class_by_fullname E fullname).
Proof.
  destruct fullname; simpl; [frame_step| |].
  - frame_step; [apply preserves_index_last|].
    frame_step; [apply preserves_import_module|apply preserves_getattr_module].
  - frame_step; [apply preserves_get_class|frame_step].
Qed.

Lemma preserves_populate_folder entry : preserves R (populate_folder E entry).
Proof.
  unfold populate_folder. destruct (bool_decide _); [|frame_step].
  frame_step; [frame_step|].
  destruct (PyStr.split_once _ _) as [[? ?]|]; [|frame_step].
  frame_step; [apply preserves_load_module|frame_step].
Qed.

(** From here on counting a walk must maintain [R] too. *)
Context (Hwalk : ∀ w, R w (set_walks S w)).

Lemma preserves_populate_registry : preserves R (populate_registry E).
Proof.
  unfold populate_registry. frame_step.
  - apply preserves_modify. apply Hwalk.
  - apply (preserves_for_each R HP), preserves_populate_folder.
Qed.

Lemma preserves_get_BLACS_tab name : preserves R (get_BLACS_tab E name).
Proof.
  unfold get_BLACS_tab. frame_step; [frame_step|].
  frame_step; [frame_step; [apply preserves_populate_registry|frame_step]|].
  frame_step; [frame_step|].
  destruct (_ !! _);
    [apply preserves__import_class_by_fullname|apply preserves_ClassRegister___getitem__].
Qed.

Lemma preserves_get_runviewer_parser name : preserves R (get_runviewer_parser E name).
Proof.
  unfold get_runviewer_parser. frame_step; [frame_step|].
  frame_step; [frame_step; [apply preserves_populate_registry|frame_step]|].
  frame_step; [frame_step|].
  destruct (_ !! _);
    [apply preserves__import_class_by_fullname|apply preserves_ClassRegister___getitem__].
Qed.

Lemma preserves_run_call c : preserves R (run_call E c).
Proof.
  destruct c; simpl.
  - frame_step; [apply preserves_new_class|frame_step].
  - frame_step; [apply preserves_apply_decorator|frame_step].
  - apply Hreg.
  - apply preserves_populate_registry.
  - frame_step; [apply preserves_get_BLACS_tab|frame_step].
  - frame_step; [apply preserves_get_runviewer_parser|frame_step].
Qed.

Lemma run_calls_related cs w : R w (run_calls E cs w).
Proof.
  revert w. induction cs as [|c cs IH]; intros w; simpl; [apply HP|].
  apply (@PreOrder_Transitive _ R HP _ (run_call E c w).2); [apply preserves_run_call|apply IH].
Qed.

End FrameLemmas.

(** ** The three frame relations *)

Lemma same_walks_frame : Frame same_walks.
Proof.
  split; unfold same_walks; try (intros f w; reflexivity).
  - split; [by intros w|]. intros w1 w2 w3. congruence.
  - by intros [] name cls w.
Qed.

Lemma registries_grow_frame : Frame registries_grow.
Proof.
  split; unfold registries_grow; try (intros f w; split; reflexivity).
  - split; [by intros w|]. intros w1 w2 w3 [? ?] [? ?]. split; set_solver.
  - by intros [] name cls w.
Qed.

Lemma keeps_aligned_frame : Frame keeps_aligned.
Proof.
  split; unfold keeps_aligned, aligned; try (intros f w; by simpl).
  - split; [by intros w|]. intros w1 w2 w3. tauto.
  - by intros [] name cls w.
Qed.

Lemma same_instancenames_frame : Frame same_instancenames.
Proof.
  split; unfold same_instancenames; try (intros f w []; reflexivity).
  - split; [by intros w|]. intros w1 w2 w3 H12 H23 self. by rewrite H23, H12.
  - by intros [] name cls w [].
Qed.

Lemma register_classes_run name tab parser w :
  register_classes name tab parser w =
    (Ok tt, set_runviewer_parser_registry (λ d, <[name := parser]> d)
              (set_BLACS_tab_registry (λ d, <[name := tab]> d) w)).
Proof. reflexivity. Qed.

Lemma register_classes_same_walks name tab parser :
  preserves same_walks (register_classes name tab parser).
Proof. intros w. reflexivity. Qed.

Lemma register_classes_grow name tab parser :
  preserves registries_grow (register_classes name tab parser).
Proof.
  intros w. rewrite register_classes_run. unfold registries_grow. simpl.
  rewrite !dom_insert_L. set_solver.
Qed.

Lemma register_classes_keeps_aligned name tab parser :
  preserves keeps_aligned (register_classes name tab parser).
Proof.
  intros w. rewrite register_classes_run. unfold keeps_aligned, aligned. simpl.
  rewrite !dom_insert_L. by intros ->.
Qed.

Lemma aligned_empty_iff w :
  aligned w → (BLACS_tab_registry w = ∅ ↔ runviewer_parser_registry w = ∅).
Proof.
  unfold aligned. intros Hdom.
  rewrite <- (dom_empty_iff_L (BLACS_tab_registry w)).
  rewrite <- (dom_empty_iff_L (runviewer_parser_registry w)).
  by rewrite Hdom.
Qed.

Lemma aligned_init_world : aligned init_world.
Proof. reflexivity. Qed.

(** Whatever the clients of the module call, the deferred registries stay
    aligned and keep their device names. *)
Lemma run_calls_aligned E cs w : aligned w → aligned (run_calls E cs w).
Proof.
  apply (run_calls_related E keeps_aligned keeps_aligned_frame).
  - apply register_classes_keeps_aligned.
  - intros w0. unfold keeps_aligned, aligned. simpl. tauto.
Qed.

Lemma run_calls_grow E cs w : registries_grow w (run_calls E cs w).
Proof.
  apply (run_calls_related E registries_grow registries_grow_frame).
  - apply register_classes_grow.
  - intros w0. unfold registries_grow. simpl. split; reflexivity.
Qed.

Lemma nonempty_grows (d d' : gmap string PyVal) : dom d ⊆ dom d' → d ≠ ∅ → d' ≠ ∅.
Proof.
  intros Hsub Hne ->. apply Hne. apply dom_empty_iff_L.
  rewrite dom_empty_L in Hsub. set_solver.
Qed.

(** ** The deferred registries *)

(** C3: [register_classes(device_name, panel_path, parser_path)] never fails,
    whatever the values are, and writes both mappings at [device_name] with the
    values it was given ([None] too), leaving the other names as they were; a
    second registration of the same name replaces the first, so that the state
    is that of the last registration alone. *)
Theorem register_classes_overwrites (name : string) (tab parser : PyVal) (w : World) :
  ∃ w',
    register_classes name tab parser w = (Ok tt, w')
    ∧ BLACS_tab_registry w' = <[name := tab]> (BLACS_tab_registry w)
    ∧ runviewer_parser_registry w' = <[name := parser]> (runviewer_parser_registry w)
    ∧ BLACS_tab_registry w' !! name = Some tab
    ∧ runviewer_parser_registry w' !! name = Some parser
    ∧ (∀ other, other ≠ name →
         BLACS_tab_registry w' !! other = BLACS_tab_registry w !! other
         ∧ runviewer_parser_registry w' !! other = runviewer_parser_registry w !! other)
    ∧ (∀ tab0 parser0,
         register_classes name tab parser (register_classes name tab0 parser0 w).2 = (Ok tt, w')).
Proof.
  eexists. split; [apply register_classes_run|]. simpl.
  split_and!; try done.
  - apply lookup_insert_eq.
  - apply lookup_insert_eq.
  - intros other Hne. by rewrite !lookup_insert_ne.
  - intros tab0 parser0. rewrite !register_classes_run. simpl.
    unfold set_runviewer_parser_registry, set_BLACS_tab_registry. simpl.
    by rewrite !insert_insert_eq.
Qed.

(** C10: after any sequence of [register_classes] calls from the initial
    state, in which both mappings are empty, the panel mapping and the parser
    mapping have the same key set, and one is empty exactly when the other is. *)
Theorem registries_same_keys (l : list (string * PyVal * PyVal)) :
  BLACS_tab_registry init_world = ∅
  ∧ runviewer_parser_registry init_world = ∅
  ∧ (register_all l init_world).1 = Ok tt
  ∧ dom (BLACS_tab_registry (register_all l init_world).2)
    = dom (runviewer_parser_registry (register_all l init_world).2)
  ∧ (BLACS_tab_registry (register_all l init_world).2 = ∅
     ↔ runviewer_parser_registry (register_all l init_world).2 = ∅).
Proof.
  assert (Hal : aligned (register_all l init_world).2).
  { apply (preserves_for_each keeps_aligned (frame_preorder _ keeps_aligned_frame)).
    - intros [[name tab] parser]. apply register_classes_keeps_aligned.
    - apply aligned_init_world. }
  split_and!; [done|done| |exact Hal|by apply aligned_empty_iff].
  clear Hal. generalize init_world. unfold register_all.
  induction l as [|[[name tab] parser] l IH]; intros w; [done|].
  simpl. unfold bind. rewrite register_classes_run. apply IH.
Qed.

(** ** The deprecated decorators *)

(** C9: applied to any class object in any state, [labscript_device] and
    [BLACS_worker] return the object they were given, leave both decorator
    registers, both deferred registries and the class objects as they were, and
    issue one warning, whose message names the decorator. *)
Theorem deprecated_decorators_pass_through {A} (cls : A) (w : World) :
  (∃ w',
     labscript_device cls w = (Ok cls, w')
     ∧ warnings w' = warnings w ++
         [("UserWarning", "@labscript_device decorator is unnecessary and can be removed")]
     ∧ BLACS_tab w' = BLACS_tab w ∧ runviewer_parser w' = runviewer_parser w
     ∧ BLACS_tab_registry w' = BLACS_tab_registry w
     ∧ runviewer_parser_registry w' = runviewer_parser_registry w
     ∧ classes w' = classes w)
  ∧ (∃ w',
     BLACS_worker cls w = (Ok cls, w')
     ∧ warnings w' = warnings w ++
         [("UserWarning", "@BLACS_worker decorator is unnecessary and can be removed")]
     ∧ BLACS_tab w' = BLACS_tab w ∧ runviewer_parser w' = runviewer_parser w
     ∧ BLACS_tab_registry w' = BLACS_tab_registry w
     ∧ runviewer_parser_registry w' = runviewer_parser_registry w
     ∧ classes w' = classes w).
Proof. split; (eexists; split; [reflexivity|]); simpl; by split_and!. Qed.

(** ** The lookup functions, branch by branch *)

Lemma get_BLACS_tab_present E name w fullname :
  BLACS_tab_registry w !! name = Some fullname →
  get_BLACS_tab E name w = _import_class_by_fullname E fullname w.
Proof.
  intros Hname. unfold get_BLACS_tab, bind, gets. simpl.
  destruct (decide (BLACS_tab_registry w = ∅)) as [Hempty|_].
  - by rewrite Hempty, lookup_empty in Hname.
  - simpl. by rewrite Hname.
Qed.

Lemma get_runviewer_parser_present E name w fullname :
  runviewer_parser_registry w !! name = Some fullname →
  get_runviewer_parser E name w = _import_class_by_fullname E fullname w.
Proof.
  intros Hname. unfold get_runviewer_parser, bind, gets. simpl.
  destruct (decide (runviewer_parser_registry w = ∅)) as [Hempty|_].
  - by rewrite Hempty, lookup_empty in Hname.
  - simpl. by rewrite Hname.
Qed.

Lemma get_BLACS_tab_absent E name w :
  BLACS_tab_registry w ≠ ∅ → BLACS_tab_registry w !! name = None →
  get_BLACS_tab E name w = ClassRegister___getitem__ E The_BLACS_tab name w.
Proof.
  intros Hne Hname. unfold get_BLACS_tab, bind, gets. simpl.
  destruct (decide (BLACS_tab_registry w = ∅)); [done|].
  simpl. by rewrite Hname.
Qed.

Lemma get_runviewer_parser_absent E name w :
  runviewer_parser_registry w ≠ ∅ → runviewer_parser_registry w !! name = None →
  get_runviewer_parser E name w = ClassRegister___getitem__ E The_runviewer_parser name w.
Proof.
  intros Hne Hname. unfold get_runviewer_parser, bind, gets. simpl.
  destruct (decide (runviewer_parser_registry w = ∅)); [done|].
  simpl. by rewrite Hname.
Qed.

Lemma get_BLACS_tab_empty E name w :
  BLACS_tab_registry w = ∅ →
  get_BLACS_tab E name w = lookup_after_populate E The_BLACS_tab name w.
Proof.
  intros Hempty. unfold get_BLACS_tab, lookup_after_populate, bind at 1, gets at 1.
  destruct (decide (BLACS_tab_registry w = ∅)); done.
Qed.

Lemma get_runviewer_parser_empty E name w :
  runviewer_parser_registry w = ∅ →
  get_runviewer_parser E name w = lookup_after_populate E The_runviewer_parser name w.
Proof.
  intros Hempty. unfold get_runviewer_parser, lookup_after_populate, bind at 1, gets at 1.
  destruct (decide (runviewer_parser_registry w = ∅)); done.
Qed.

(** ** A device registered without a class *)

(** C1, as the code has it: after [register_classes] has recorded [None] as
    the parser path of a device, [get_runviewer_parser] of that device raises
    the AttributeError of [None.split('.')] instead of returning [None], and
    leaves the state as it was; so does [get_BLACS_tab] for a device whose
    panel path is [None]. *)
Theorem lookup_of_None_path_raises (E : Env) (name : string) (other : PyVal) (w : World) :
  get_runviewer_parser E name (register_classes name other VNone w).2
  = (Err (Raise AttributeError "'NoneType' object has no attribute 'split'"),
     (register_classes name other VNone w).2)
  ∧ get_BLACS_tab E name (register_classes name VNone other w).2
    = (Err (Raise AttributeError "'NoneType' object has no attribute 'split'"),
       (register_classes name VNone other w).2).
Proof.
  split.
  - rewrite (get_runviewer_parser_present E name _ VNone); [done|].
    rewrite register_classes_run. apply lookup_insert_eq.
  - rewrite (get_BLACS_tab_present E name _ VNone); [done|].
    rewrite register_classes_run. apply lookup_insert_eq.
Qed.

Example lookup_of_None_path_FooDevice :
  (get_runviewer_parser (demo_env None) "FooDevice"
     (register_classes "FooDevice" (VStr "pkg.foo.FooTab") VNone init_world).2).1
  = Err (Raise AttributeError "'NoneType' object has no attribute 'split'").
Proof. vm_compute. reflexivity. Qed.

(** ** The decorator registers *)

Lemma setattr_class_run cls attr v o w :
  classes w !! cls = Some o →
  setattr_class cls attr v w =
    (Ok tt, set_classes
              (λ h, <[cls := MkClass (cls_name o) (cls_module o) (<[attr := v]> (cls_attrs o))]> h) w).
Proof. intros Hcls. unfold setattr_class, bind, get_class. by rewrite Hcls. Qed.

(** C6: for a class object whose defining module's name has [name] as its
    last dotted component, [name] not being [__main__], the register stores
    the class under [name], sets the attribute [labscript_device_class_name]
    of the class to [name], changes no other class object and neither deferred
    registry, and returns the class it was given. *)
Theorem register_stores_and_stamps (E : Env) (self : RegisterId) (cls : nat)
    (o : ClassObj) (name : string) (w : World) :
  classes w !! cls = Some o →
  PyStr.last_item (PyStr.split "." (cls_module o)) = Some name →
  name ≠ "__main__" →
  ∃ w',
    ClassRegister___call__ E self cls w = (Ok cls, w')
    ∧ registered_classes (get_register self w')
      = <[name := cls]> (registered_classes (get_register self w))
    ∧ registered_classes (get_register self w') !! name = Some cls
    ∧ classes w' = <[cls := stamped o name]> (classes w)
    ∧ classes w' !! cls = Some (stamped o name)
    ∧ cls_attrs (stamped o name) !! "labscript_device_class_name" = Some (VStr name)
    ∧ BLACS_tab_registry w' = BLACS_tab_registry w
    ∧ runviewer_parser_registry w' = runviewer_parser_registry w.
Proof.
  intros Hcls Hname Hmain.
  unfold ClassRegister___call__.
  unfold bind at 1, get_class at 1. rewrite Hcls.
  unfold index_last. rewrite Hname.
  unfold bind at 1, ret at 1.
  unfold bind at 1. rewrite (setattr_class_run _ _ _ _ _ Hcls).
  destruct (decide (name = "__main__")) as [|_]; [done|].
  eexists. split; [reflexivity|].
  destruct self; simpl; (split_and!; try done);
    first [ apply lookup_insert_eq
          | apply list_lookup_insert_eq; by eapply lookup_lt_Some ].
Qed.

(** The decorator applied to the class [BarTab] of [labscript_devices.BarDevice]. *)
Lemma register_stores_and_stamps_witness :
  ∃ w',
    ClassRegister___call__ (demo_env None) The_BLACS_tab 0
      (new_class "BarTab" "labscript_devices.BarDevice" init_world).2 = (Ok 0%nat, w')
    ∧ registered_classes (BLACS_tab w') !! "BarDevice" = Some 0%nat
    ∧ classes w' !! 0%nat
      = Some (stamped (MkClass "BarTab" "labscript_devices.BarDevice" ∅) "BarDevice").
Proof.
  destruct (register_stores_and_stamps (demo_env None) The_BLACS_tab 0
              (MkClass "BarTab" "labscript_devices.BarDevice" ∅) "BarDevice"
              (new_class "BarTab" "labscript_devices.BarDevice" init_world).2)
    as (w' & Hrun & _ & Hreg & _ & Hcls & _); [reflexivity|reflexivity|done|].
  exists w'. by split_and!.
Defined.

(** The run of [ClassRegister.__call__] on a class of the entry-point module. *)
Lemma ClassRegister___call___main E self cls o w :
  classes w !! cls = Some o →
  PyStr.last_item (PyStr.split "." (cls_module o)) = Some "__main__" →
  ClassRegister___call__ E self cls w
  = match main_file E with
    | Some file =>
        (Ok cls,
         set_register self (store_class (os_path.splitext (os_path.basename file)).1 cls)
           (set_classes
              (λ h, <[cls := stamped o (os_path.splitext (os_path.basename file)).1]> h) w))
    | None =>
        (Err (Raise RuntimeError
                ("Can't figure out what the file or module this class is being defined in. " +:+
                 "If you are testing, please test from a more standard environment, such as " +:+
                 "executing a script from the command line, or if you are using an interactive session, " +:+
                 "writing your code in a separate module and importing it.")),
         set_classes (λ h, <[cls := stamped o "__main__"]> h) w)
    end.
Proof.
  intros Hcls Hname.
  assert (Hlt : (cls < List.length (classes w))%nat) by by eapply lookup_lt_Some.
  unfold ClassRegister___call__.
  unfold bind at 1, get_class at 1. rewrite Hcls.
  unfold index_last. rewrite Hname.
  unfold bind at 1, ret at 1.
  unfold bind at 1. rewrite (setattr_class_run _ _ _ _ _ Hcls).
  destruct (decide ("__main__" = "__main__")) as [_|]; [|done].
  destruct (main_file E) as [file|]; [|reflexivity].
  unfold bind at 1. unfold bind at 1.
  erewrite setattr_class_run; [|simpl; by apply list_lookup_insert_eq].
  unfold bind, modify, ret. simpl. do 2 f_equal.
  unfold set_classes. simpl. rewrite list_insert_insert_eq. do 3 f_equal.
  unfold stamped. simpl. by rewrite insert_insert_eq.
Qed.

(** C8: for a class whose module is the entry-point module [__main__]: when
    [__main__] has no [__file__], the register raises a RuntimeError that says
    the environment is not one it can work in, and registers nothing; when it
    has one, the class is stored under, and stamped with, the base name of that
    file without its extension. *)
Theorem register_in_main (E : Env) (self : RegisterId) (cls : nat) (o : ClassObj) (w : World) :
  classes w !! cls = Some o →
  PyStr.last_item (PyStr.split "." (cls_module o)) = Some "__main__" →
  (main_file E = None →
   ∃ w',
     ClassRegister___call__ E self cls w
     = (Err (Raise RuntimeError
               ("Can't figure out what the file or module this class is being defined in. " +:+
                "If you are testing, please test from a more standard environment, such as " +:+
                "executing a script from the command line, or if you are using an interactive session, " +:+
                "writing your code in a separate module and importing it.")), w')
     ∧ get_register self w' = get_register self w)
  ∧ (∀ file, main_file E = Some file →
     ∃ w',
       ClassRegister___call__ E self cls w = (Ok cls, w')
       ∧ registered_classes (get_register self w')
         = <[(os_path.splitext (os_path.basename file)).1 := cls]>
             (registered_classes (get_register self w))
       ∧ classes w' !! cls
         = Some (stamped o (os_path.splitext (os_path.basename file)).1)).
Proof.
  intros Hcls Hname.
  assert (Hlt : (cls < List.length (classes w))%nat) by by eapply lookup_lt_Some.
  rewrite (ClassRegister___call___main E self cls o w Hcls Hname).
  split.
  - intros ->. eexists. split; [reflexivity|]. by destruct self.
  - intros file ->. eexists. split; [reflexivity|].
    destruct self; simpl; (split; [done|]); by apply list_lookup_insert_eq.
Qed.

(** A class of [__main__], in an interactive session and in the script
    [/home/lab/PulseBlaster.py]. *)
Lemma register_in_main_witness :
  (∃ w',
     (ClassRegister___call__ (demo_env None) The_BLACS_tab 0
        (new_class "Tab" "__main__" init_world).2).1
     = Err (Raise RuntimeError
              ("Can't figure out what the file or module this class is being defined in. " +:+
               "If you are testing, please test from a more standard environment, such as " +:+
               "executing a script from the command line, or if you are using an interactive session, " +:+
               "writing your code in a separate module and importing it."))
     ∧ registered_classes (BLACS_tab w') = ∅)
  ∧ (∃ w',
       ClassRegister___call__ (demo_env (Some "/home/lab/PulseBlaster.py")) The_BLACS_tab 0
         (new_class "Tab" "__main__" init_world).2 = (Ok 0%nat, w')
       ∧ registered_classes (BLACS_tab w') !! "PulseBlaster" = Some 0%nat
       ∧ classes w' !! 0%nat = Some (stamped (MkClass "Tab" "__main__" ∅) "PulseBlaster")).
Proof.
  split.
  - destruct (register_in_main (demo_env None) The_BLACS_tab 0 (MkClass "Tab" "__main__" ∅)
                (new_class "Tab" "__main__" init_world).2) as [Hnone _];
      [reflexivity|reflexivity|].
    destruct (Hnone eq_refl) as (w' & Hrun & Hreg).
    exists w'. rewrite Hrun. split; [reflexivity|]. simpl in Hreg. by rewrite Hreg.
  - destruct (register_in_main (demo_env (Some "/home/lab/PulseBlaster.py")) The_BLACS_tab 0
                (MkClass "Tab" "__main__" ∅)
                (new_class "Tab" "__main__" init_world).2) as [_ Hfile];
      [reflexivity|reflexivity|].
    destruct (Hfile _ eq_refl) as (w' & Hrun & Hreg & Hcls).
    exists w'. split_and!; [done| |done].
    simpl in Hreg. rewrite Hreg. apply lookup_insert_eq.
Defined.

Lemma register_classes_same_instancenames name tab parser :
  preserves same_instancenames (register_classes name tab parser).
Proof. by intros w []. Qed.

(** The names of the two registers never change. *)
Lemma run_calls_instancenames E cs self :
  instancename (get_register self (run_calls E cs init_world))
  = match self with
    | The_BLACS_tab => "BLACS_tab"
    | The_runviewer_parser => "runviewer_parser"
    end.
Proof.
  rewrite (run_calls_related E same_instancenames same_instancenames_frame).
  - by destruct self.
  - apply register_classes_same_instancenames.
  - by intros w [].
Qed.

Lemma ClassRegister___getitem___run E self name w m w1 :
  import_module E ("." +:+ name) (Some __name__) w = (Ok m, w1) →
  ClassRegister___getitem__ E self name w
  = match registered_classes (get_register self w1) !! name with
    | Some cls => (Ok (VClass cls), w1)
    | None =>
        (Err (Raise ValueError
                ("No class decorated as a " +:+ instancename (get_register self w1) +:+
                 " found in module " +:+ (__name__ +:+ "." +:+ name) +:+ ", " +:+
                 "Did you forget to decorate the class definition with @" +:+
                 instancename (get_register self w1) +:+ "?")), w1)
    end.
Proof.
  intros Himp. unfold ClassRegister___getitem__.
  unfold bind at 1, try_except. rewrite Himp.
  unfold bind, gets. by destruct (_ !! _).
Qed.

(** C5, as the code has it: when the module of a device name imports but no
    class is registered under the name, the lookup in the decorator register
    raises a ValueError, which is no LookupError; its message names the
    register ([BLACS_tab] or [runviewer_parser] in every state the module's
    clients can reach) and asks whether the decorator was forgotten. *)
Theorem getitem_undecorated_raises_ValueError (E : Env) (self : RegisterId) (name : string)
    (w : World) (m : string) (w1 : World) :
  import_module E ("." +:+ name) (Some __name__) w = (Ok m, w1) →
  registered_classes (get_register self w1) !! name = None →
  ClassRegister___getitem__ E self name w
  = (Err (Raise ValueError
            ("No class decorated as a " +:+ instancename (get_register self w1) +:+
             " found in module " +:+ (__name__ +:+ "." +:+ name) +:+ ", " +:+
             "Did you forget to decorate the class definition with @" +:+
             instancename (get_register self w1) +:+ "?")), w1)
  ∧ issubclass ValueError LookupError = false
  ∧ instancename (get_register self w1) = instancename (get_register self w)
  ∧ (∀ cs, w = run_calls E cs init_world →
       instancename (get_register self w1)
       = match self with
         | The_BLACS_tab => "BLACS_tab"
         | The_runviewer_parser => "runviewer_parser"
         end).
Proof.
  intros Himp Hreg.
  assert (Hnames : instancename (get_register self w1) = instancename (get_register self w)).
  { pose proof (preserves_import_module E same_instancenames same_instancenames_frame
                  register_classes_same_instancenames ("." +:+ name) (Some __name__) w) as Hpre.
    rewrite Himp in Hpre. apply Hpre. }
  split_and!; [|reflexivity|exact Hnames|].
  - rewrite (ClassRegister___getitem___run _ _ _ _ _ _ Himp). by rewrite Hreg.
  - intros cs ->. rewrite Hnames. apply run_calls_instancenames.
Qed.

(** [labscript_devices.Baz] imports and decorates no class. *)
Lemma getitem_undecorated_raises_ValueError_witness :
  ∃ w1,
    ClassRegister___getitem__ (demo_env None) The_BLACS_tab "Baz" init_world
    = (Err (Raise ValueError
              ("No class decorated as a BLACS_tab found in module labscript_devices.Baz, " +:+
               "Did you forget to decorate the class definition with @BLACS_tab?")), w1)
    ∧ sys_modules w1 !! "labscript_devices.Baz"
      = Some {[ "__name__" := VStr "labscript_devices.Baz"; "BazTab" := VClass 0 ]}.
Proof.
  eexists.
  destruct (getitem_undecorated_raises_ValueError (demo_env None) The_BLACS_tab "Baz"
              init_world "labscript_devices.Baz"
              (import_module (demo_env None) ".Baz" (Some __name__) init_world).2)
    as (Hrun & _); [reflexivity|reflexivity|].
  split; [exact Hrun|]. vm_compute. reflexivity.
Defined.

(** C5, as the claim has it, fails: for [Baz], whose module imports and
    decorates nothing, the failure is a ValueError, and ValueError is not a
    subclass of LookupError. *)
Lemma getitem_undecorated_not_LookupError :
  ∃ m w1 e,
    import_module (demo_env None) ".Baz" (Some __name__) init_world = (Ok m, w1)
    ∧ registered_classes (BLACS_tab w1) !! "Baz" = None
    ∧ ClassRegister___getitem__ (demo_env None) The_BLACS_tab "Baz" init_world = (Err e, w1)
    ∧ exn_class e = ValueError
    ∧ issubclass (exn_class e) LookupError = false.
Proof.
  eexists _, _, _. split_and!.
  - vm_compute. reflexivity.
  - reflexivity.
  - vm_compute. reflexivity.
  - reflexivity.
  - reflexivity.
Qed.

(** ** The name resolver *)

Lemma lstrip_count_not_dotted name :
  PyStr.startswith "." name = false → PyStr.lstrip_count "." name = (O, name).
Proof.
  destruct name as [|c name]; [done|].
  unfold PyStr.startswith.
  change (PyStr.strip_prefix "." (String c name))
    with (if Ascii.eqb "." c then Some name else None).
  change (PyStr.lstrip_count "." (String c name))
    with (if Ascii.eqb c "." then let '(n, r) := PyStr.lstrip_count "." name in (S n, r)
          else (O, String c name)).
  rewrite (Ascii.eqb_sym c "."). by destruct (Ascii.eqb "." c).
Qed.

(** An absolute import returns the module of the name it was given. *)
Lemma import_module_absolute_Ok E name w m w1 :
  import_module E name None w = (Ok m, w1) → m = name.
Proof.
  unfold import_module.
  destruct (PyStr.lstrip_count "." name) as [[|level] rest]; [|done].
  destruct (decide (name = "")); [done|].
  unfold _find_and_load, bind, gets.
  destruct (sys_modules w !! name); [unfold ret; congruence|].
  destruct (importable E !! name) as [body|]; [|done].
  unfold load_module, bind, gets, ret.
  repeat (match goal with
          | |- context [let (_, _) := ?x in _] => destruct x as [[?|?] ?]
          end; try done).
  congruence.
Qed.

(** An absolute import of a module that is neither loaded nor importable. *)
Lemma import_module_not_found E name w :
  name ≠ "" → PyStr.startswith "." name = false →
  sys_modules w !! name = None → importable E !! name = None →
  import_module E name None w
  = (Err (Raise ModuleNotFoundError ("No module named '" +:+ name +:+ "'")), w).
Proof.
  intros Hne Hdot Hsys Himp. unfold import_module.
  rewrite (lstrip_count_not_dotted _ Hdot).
  destruct (decide (name = "")); [done|].
  unfold _find_and_load, bind, gets. by rewrite Hsys, Himp.
Qed.

Lemma _import_class_by_fullname_run E fullname class_name w :
  PyStr.last_item (PyStr.split "." fullname) = Some class_name →
  _import_class_by_fullname E (VStr fullname) w
  = match import_module E (PyStr.join "." (PyStr.but_last (PyStr.split "." fullname))) None w with
    | (Ok m, w1) => getattr_module m class_name w1
    | (Err e, w1) => (Err e, w1)
    end.
Proof.
  intros Hlast. unfold _import_class_by_fullname, index_last. rewrite Hlast.
  unfold bind at 1, ret at 1. unfold bind.
  by destruct (import_module _ _ _ _) as [[m|e] w1].
Qed.

(** C4: [_import_class_by_fullname] cuts the name at its last dot into a
    module path and a class name (the class name has no dot; the two, joined by
    a dot, are the name), imports the module of that path and returns its
    attribute of that name, in the state the import leaves. When the attribute
    is missing it raises an AttributeError. When the import raises, it raises
    the same; for a module path that names a module neither loaded nor
    importable, that is a subclass of ImportError. *)
Theorem import_class_by_fullname_resolves (E : Env) (fullname : string) (w : World) :
  ∃ class_name,
    PyStr.last_item (PyStr.split "." fullname) = Some class_name
    ∧ PyStr.has_char "." class_name = false
    ∧ (PyStr.has_char "." fullname = true →
       fullname
       = PyStr.join "." (PyStr.but_last (PyStr.split "." fullname)) +:+ "." +:+ class_name)
    ∧ (∀ m w1,
         import_module E (PyStr.join "." (PyStr.but_last (PyStr.split "." fullname))) None w
         = (Ok m, w1) →
         m = PyStr.join "." (PyStr.but_last (PyStr.split "." fullname))
         ∧ (∀ v, sys_modules w1 !! m ≫= (λ ns, ns !! class_name) = Some v →
              _import_class_by_fullname E (VStr fullname) w = (Ok v, w1))
         ∧ (sys_modules w1 !! m ≫= (λ ns, ns !! class_name) = None →
              ∃ msg, _import_class_by_fullname E (VStr fullname) w
                     = (Err (Raise AttributeError msg), w1)))
    ∧ (∀ e w1,
         import_module E (PyStr.join "." (PyStr.but_last (PyStr.split "." fullname))) None w
         = (Err e, w1) →
         _import_class_by_fullname E (VStr fullname) w = (Err e, w1))
    ∧ (PyStr.join "." (PyStr.but_last (PyStr.split "." fullname)) ≠ "" →
       PyStr.startswith "." (PyStr.join "." (PyStr.but_last (PyStr.split "." fullname))) = false →
       sys_modules w !! PyStr.join "." (PyStr.but_last (PyStr.split "." fullname)) = None →
       importable E !! PyStr.join "." (PyStr.but_last (PyStr.split "." fullname)) = None →
       ∃ e, _import_class_by_fullname E (VStr fullname) w = (Err e, w)
            ∧ issubclass (exn_class e) ImportError = true).
Proof.
  destruct (split_at_last_dot fullname) as (class_name & Hlast & Hnodot & Hjoin & _).
  exists class_name. split_and!; [done|done|done| | |].
  - intros m w1 Himp. split_and!.
    + by eapply import_module_absolute_Ok.
    + intros v Hv. rewrite (_import_class_by_fullname_run _ _ _ _ Hlast), Himp.
      unfold getattr_module, bind, gets. by rewrite Hv.
    + intros Hv. rewrite (_import_class_by_fullname_run _ _ _ _ Hlast), Himp.
      unfold getattr_module, bind, gets. rewrite Hv. by eexists.
  - intros e w1 Himp. by rewrite (_import_class_by_fullname_run _ _ _ _ Hlast), Himp.
  - intros Hne Hdot Hsys Himp. eexists.
    rewrite (_import_class_by_fullname_run _ _ _ _ Hlast).
    rewrite (import_module_not_found _ _ _ Hne Hdot Hsys Himp). done.
Qed.

(** A class that is there, an attribute that is not, a module that is not. *)
Lemma import_class_by_fullname_resolves_witness :
  (∃ w1, _import_class_by_fullname (demo_env None) (VStr "pkg.foo.FooTab") init_world
         = (Ok (VClass 0), w1)
         ∧ (classes w1 !! 0%nat) = Some (MkClass "FooTab" "pkg.foo" ∅))
  ∧ (∃ msg w1, _import_class_by_fullname (demo_env None) (VStr "pkg.foo.Nope") init_world
               = (Err (Raise AttributeError msg), w1))
  ∧ (∃ e, _import_class_by_fullname (demo_env None) (VStr "pkg.nope.FooTab") init_world
          = (Err e, init_world)
          ∧ issubclass (exn_class e) ImportError = true).
Proof.
  split_and!.
  - destruct (import_class_by_fullname_resolves (demo_env None) "pkg.foo.FooTab" init_world)
      as (c & Hc & _ & _ & Hok & _).
    vm_compute in Hc. injection Hc as <-.
    destruct (Hok "pkg.foo" (import_module (demo_env None) "pkg.foo" None init_world).2
                eq_refl) as (_ & Hv & _).
    eexists. split; [apply (Hv (VClass 0)); reflexivity|reflexivity].
  - destruct (import_class_by_fullname_resolves (demo_env None) "pkg.foo.Nope" init_world)
      as (c & Hc & _ & _ & Hok & _).
    vm_compute in Hc. injection Hc as <-.
    destruct (Hok "pkg.foo" (import_module (demo_env None) "pkg.foo" None init_world).2
                eq_refl) as (_ & _ & Hnone).
    destruct (Hnone eq_refl) as [msg Hmsg]. by eexists _, _.
  - destruct (import_class_by_fullname_resolves (demo_env None) "pkg.nope.FooTab" init_world)
      as (c & _ & _ & _ & _ & _ & Hmissing).
    apply Hmissing; [done|reflexivity|reflexivity|reflexivity].
Defined.

(** ** What the resolver does not read *)

Section IgnoresRegisters.
Context (E : Env).

Lemma ignores_ret {A} (a : A) : ignores_registers (ret a).
Proof. by intros w1 w2 H. Qed.

Lemma ignores_raise {A} c msg : ignores_registers (@raise A c msg).
Proof. by intros w1 w2 H. Qed.

Lemma ignores_reraise {A} e : ignores_registers (@reraise A e).
Proof. by intros w1 w2 H. Qed.

Lemma ignores_gets {A} (f : World → A) :
  (∀ w1 w2, same_but_registers w1 w2 → f w1 = f w2) → ignores_registers (gets f).
Proof. intros Hf w1 w2 H. simpl. split; [f_equal; by apply Hf|done]. Qed.

Lemma ignores_modify f :
  (∀ w1 w2, same_but_registers w1 w2 → same_but_registers (f w1) (f w2)) →
  ignores_registers (modify f).
Proof. intros Hf w1 w2 H. simpl. split; [done|by apply Hf]. Qed.

Lemma ignores_bind {A B} (m : M A) (k : A → M B) :
  ignores_registers m → (∀ a, ignores_registers (k a)) → ignores_registers (bind m k).
Proof.
  intros Hm Hk w1 w2 H. unfold bind. destruct (Hm w1 w2 H) as [Hres Hw].
  destruct (m w1) as [[a1|e1] w1'], (m w2) as [[a2|e2] w2']; simpl in *; simplify_eq.
  - by apply Hk.
  - done.
Qed.

Lemma ignores_try_except {A} (m : M A) c h :
  ignores_registers m → (∀ e, ignores_registers (h e)) →
  ignores_registers (try_except m c h).
Proof.
  intros Hm Hh w1 w2 H. unfold try_except. destruct (Hm w1 w2 H) as [Hres Hw].
  destruct (m w1) as [[a1|e1] w1'], (m w2) as [[a2|e2] w2']; simpl in *; simplify_eq.
  - done.
  - destruct (issubclass _ _); [by apply Hh|done].
Qed.

Lemma ignores_for_each {A} (f : A → M unit) l :
  (∀ x, ignores_registers (f x)) → ignores_registers (for_each f l).
Proof.
  intros Hf. induction l as [|x l IH]; simpl; [apply ignores_ret|].
  apply ignores_bind; [apply Hf|done].
Qed.

Ltac same_fields :=
  intros [] [] (? & ? & ? & ? & ? & ? & ?); simpl in *; subst;
  first [ reflexivity | by repeat split ].

Ltac ignores_step :=
  first
    [ apply ignores_bind; [|intros ?]
    | apply ignores_ret
    | apply ignores_raise
    | apply ignores_reraise
    | apply ignores_try_except; [|intros ?]
    | apply ignores_gets; same_fields
    | apply ignores_modify; same_fields ].

Lemma ignores_get_class cls : ignores_registers (get_class cls).
Proof.
  intros w1 w2 H. unfold get_class. rewrite (proj1 (proj2 H)).
  destruct (classes w2 !! cls); simpl; by split.
Qed.

Lemma ignores_setattr_class cls attr v : ignores_registers (setattr_class cls attr v).
Proof. unfold setattr_class. ignores_step; [apply ignores_get_class|ignores_step]. Qed.

Lemma ignores_new_class cname modname : ignores_registers (new_class cname modname).
Proof. unfold new_class. repeat ignores_step. Qed.

Lemma ignores_setattr_module m attr v : ignores_registers (setattr_module m attr v).
Proof. unfold setattr_module. ignores_step. Qed.

Lemma ignores_getattr_module m attr : ignores_registers (getattr_module m attr).
Proof.
  unfold getattr_module. ignores_step; [ignores_step|].
  destruct (_ ≫= _); ignores_step.
Qed.

Lemma ignores_index_last {A} (l : list A) : ignores_registers (index_last l).
Proof. unfold index_last. destruct (PyStr.last_item l); ignores_step. Qed.

Lemma ignores_store self name cls :
  ignores_registers (modify (set_register self (store_class name cls))).
Proof. apply ignores_modify. destruct self; same_fields. Qed.

(** The decorators write to the registers and do not read them. *)
Lemma ignores_ClassRegister___call__ self cls :
  ignores_registers (ClassRegister___call__ E self cls).
Proof.
  unfold ClassRegister___call__.
  ignores_step; [apply ignores_get_class|].
  ignores_step; [apply ignores_index_last|].
  ignores_step; [apply ignores_setattr_class|].
  ignores_step.
  - destruct (decide _); [|ignores_step].
    destruct (main_file E); [|ignores_step].
    ignores_step; [apply ignores_setattr_class|ignores_step].
  - ignores_step; [apply ignores_store|ignores_step].
Qed.

Lemma ignores_null_decorator {A} name (cls : A) : ignores_registers (null_decorator name cls).
Proof. unfold null_decorator. repeat ignores_step. Qed.

Lemma ignores_apply_decorator d cls : ignores_registers (apply_decorator E d cls).
Proof.
  destruct d; simpl;
    first [apply ignores_ClassRegister___call__ | apply ignores_null_decorator].
Qed.

Lemma ignores_apply_decorators ds cls : ignores_registers (apply_decorators E ds cls).
Proof.
  revert cls. induction ds as [|d ds IH]; intros cls; simpl; [ignores_step|].
  ignores_step; [apply ignores_apply_decorator|apply IH].
Qed.

Lemma ignores_register_classes name tab parser :
  ignores_registers (register_classes name tab parser).
Proof. unfold register_classes. repeat ignores_step. Qed.

Lemma ignores_exec_stmt modname s : ignores_registers (exec_stmt E modname s).
Proof.
  destruct s; simpl; [|apply ignores_register_classes|ignores_step].
  ignores_step; [apply ignores_new_class|].
  ignores_step; [apply ignores_apply_decorators|apply ignores_setattr_module].
Qed.

Lemma ignores_exec_body modname body : ignores_registers (exec_body E modname body).
Proof.
  induction body as [|s body IH]; simpl; [ignores_step|].
  ignores_step; [apply ignores_exec_stmt|apply IH].
Qed.

Lemma ignores_load_module name body : ignores_registers (load_module E name body).
Proof.
  unfold load_module. ignores_step; [ignores_step|].
  ignores_step; [destruct a; ignores_step|].
  ignores_step; [|ignores_step].
  ignores_step; [apply ignores_exec_body|].
  ignores_step; [destruct a; ignores_step|ignores_step].
Qed.

Lemma ignores__find_and_load name : ignores_registers (_find_and_load E name).
Proof.
  unfold _find_and_load. ignores_step; [ignores_step|].
  destruct (_ !! _); [ignores_step|].
  destruct (_ !! _); [apply ignores_load_module|ignores_step].
Qed.

Lemma ignores_import_module name package : ignores_registers (import_module E name package).
Proof.
  unfold import_module. destruct (PyStr.lstrip_count _ _) as [[|level] rest].
  - destruct (decide _); [ignores_step|apply ignores__find_and_load].
  - destruct package; [|ignores_step].
    ignores_step; [|apply ignores__find_and_load].
    unfold _resolve_name. destruct (_ <? _)%nat; ignores_step.
Qed.

Lemma ignores__import_class_by_fullname fullname :
  ignores_registers (_import_class_by_fullname E fullname).
Proof.
  destruct fullname; simpl; [ignores_step| |].
  - ignores_step; [apply ignores_index_last|].
    ignores_step; [apply ignores_import_module|apply ignores_getattr_module].
  - ignores_step; [apply ignores_get_class|ignores_step].
Qed.

End IgnoresRegisters.

(** ** Runs of the lookup functions on the small installation *)

Example get_BLACS_tab_FooDevice :
  ∃ w1, get_BLACS_tab (demo_env None) "FooDevice" init_world = (Ok (VClass 0), w1)
        ∧ classes w1 = [MkClass "FooTab" "pkg.foo" ∅]
        ∧ BLACS_tab_registry w1 = {[ "FooDevice" := VStr "pkg.foo.FooTab" ]}
        ∧ runviewer_parser_registry w1 = {[ "FooDevice" := VNone ]}.
Proof. eexists. split; [vm_compute; reflexivity|]. by split_and!. Qed.

Example get_BLACS_tab_BarDevice :
  ∃ w1, get_BLACS_tab (demo_env None) "BarDevice" init_world = (Ok (VClass 0), w1)
        ∧ classes w1 = [stamped (MkClass "BarTab" "labscript_devices.BarDevice" ∅) "BarDevice"]
        ∧ registered_classes (BLACS_tab w1) = {[ "BarDevice" := 0%nat ]}
        ∧ warnings w1
          = [("UserWarning", "@labscript_device decorator is unnecessary and can be removed")].
Proof. eexists. split; [vm_compute; reflexivity|]. by split_and!. Qed.

Example get_BLACS_tab_unknown :
  ∃ w1, get_BLACS_tab (demo_env None) "Nope" init_world
        = (Err (Raise ModuleNotFoundError "No module named 'labscript_devices.Nope'"), w1)
        ∧ List.length (stderr w1) = 1%nat.
Proof. eexists. split; [vm_compute; reflexivity|]. reflexivity. Qed.

(** ** Precedence of the deferred registries *)

(** C2: for a device name that the deferred registry holds, the lookup is the
    resolution of the recorded path, and its result is the same whatever the
    decorator registers hold; so a device registered under both mechanisms
    yields the class of the recorded path. The lookup in the decorator
    register is made only for a name that the deferred registry does not hold:
    at the call when the registry is not empty, after the populator has run
    when it is. *)
Theorem deferred_registration_wins (E : Env) (name : string) (w : World) :
  (∀ fullname, BLACS_tab_registry w !! name = Some fullname →
     get_BLACS_tab E name w = _import_class_by_fullname E fullname w
     ∧ ∀ w2, same_but_registers w w2 →
         (get_BLACS_tab E name w2).1 = (get_BLACS_tab E name w).1)
  ∧ (∀ fullname, runviewer_parser_registry w !! name = Some fullname →
     get_runviewer_parser E name w = _import_class_by_fullname E fullname w
     ∧ ∀ w2, same_but_registers w w2 →
         (get_runviewer_parser E name w2).1 = (get_runviewer_parser E name w).1)
  ∧ (BLACS_tab_registry w ≠ ∅ → BLACS_tab_registry w !! name = None →
     get_BLACS_tab E name w = ClassRegister___getitem__ E The_BLACS_tab name w)
  ∧ (runviewer_parser_registry w ≠ ∅ → runviewer_parser_registry w !! name = None →
     get_runviewer_parser E name w = ClassRegister___getitem__ E The_runviewer_parser name w)
  ∧ (BLACS_tab_registry w = ∅ →
     get_BLACS_tab E name w = lookup_after_populate E The_BLACS_tab name w)
  ∧ (runviewer_parser_registry w = ∅ →
     get_runviewer_parser E name w = lookup_after_populate E The_runviewer_parser name w).
Proof.
  split_and!.
  - intros fullname Hname. split; [by apply get_BLACS_tab_present|].
    intros w2 Hsame.
    assert (Hname2 : BLACS_tab_registry w2 !! name = Some fullname).
    { destruct Hsame as (_ & _ & _ & _ & _ & <- & _). done. }
    rewrite (get_BLACS_tab_present _ _ _ _ Hname), (get_BLACS_tab_present _ _ _ _ Hname2).
    symmetry. by apply ignores__import_class_by_fullname.
  - intros fullname Hname. split; [by apply get_runviewer_parser_present|].
    intros w2 Hsame.
    assert (Hname2 : runviewer_parser_registry w2 !! name = Some fullname).
    { destruct Hsame as (_ & _ & _ & _ & _ & _ & <-). done. }
    rewrite (get_runviewer_parser_present _ _ _ _ Hname),
      (get_runviewer_parser_present _ _ _ _ Hname2).
    symmetry. by apply ignores__import_class_by_fullname.
  - apply get_BLACS_tab_absent.
  - apply get_runviewer_parser_absent.
  - apply get_BLACS_tab_empty.
  - apply get_runviewer_parser_empty.
Qed.

(** [BarDevice], registered under both mechanisms, resolves to [pkg.foo.FooTab]. *)
Lemma deferred_registration_wins_witness :
  registered_classes (BLACS_tab both_registered) !! "BarDevice" = Some 0%nat
  ∧ BLACS_tab_registry both_registered !! "BarDevice" = Some (VStr "pkg.foo.FooTab")
  ∧ (get_BLACS_tab (demo_env None) "BarDevice" both_registered).1 = Ok (VClass 1)
  ∧ (classes (get_BLACS_tab (demo_env None) "BarDevice" both_registered).2 !! 1%nat)
    = Some (MkClass "FooTab" "pkg.foo" ∅).
Proof.
  destruct (deferred_registration_wins (demo_env None) "BarDevice" both_registered)
    as (Htab & _).
  destruct (Htab (VStr "pkg.foo.FooTab") eq_refl) as [Hrun _].
  split_and!; [reflexivity|reflexivity| |]; rewrite Hrun; vm_compute; reflexivity.
Defined.

(** ** The populator's walk *)

Lemma lookup_after_populate_walks E self name w :
  walks (lookup_after_populate E self name w).2 = S (walks w).
Proof.
  set (rest := (for_each (populate_folder E) (os_walk E) ;;;
                registry <- gets (match self with
                                  | The_BLACS_tab => BLACS_tab_registry
                                  | The_runviewer_parser => runviewer_parser_registry
                                  end) ;;
                match registry !! name with
                | Some fullname => _import_class_by_fullname E fullname
                | None => ClassRegister___getitem__ E self name
                end) : M PyVal).
  assert (Hrest : preserves same_walks rest).
  { pose proof (frame_preorder _ same_walks_frame) as HP.
    apply (preserves_bind _ HP).
    - apply (preserves_for_each _ HP). intros entry.
      apply (preserves_populate_folder E _ same_walks_frame), register_classes_same_walks.
    - intros _. apply (preserves_bind _ HP); [apply (preserves_gets _ HP)|].
      intros registry. destruct (registry !! name).
      + apply (preserves__import_class_by_fullname E _ same_walks_frame),
          register_classes_same_walks.
      + apply (preserves_ClassRegister___getitem__ E _ same_walks_frame),
          register_classes_same_walks. }
  change (lookup_after_populate E self name w) with (rest (set_walks S w)).
  apply Hrest.
Qed.

Lemma get_BLACS_tab_walks E name w :
  walks (get_BLACS_tab E name w).2
  = if decide (BLACS_tab_registry w = ∅) then S (walks w) else walks w.
Proof.
  destruct (decide (BLACS_tab_registry w = ∅)) as [Hempty|Hne].
  - rewrite (get_BLACS_tab_empty _ _ _ Hempty). apply lookup_after_populate_walks.
  - destruct (BLACS_tab_registry w !! name) as [fullname|] eqn:Hname.
    + rewrite (get_BLACS_tab_present _ _ _ _ Hname).
      apply (preserves__import_class_by_fullname E _ same_walks_frame),
        register_classes_same_walks.
    + rewrite (get_BLACS_tab_absent _ _ _ Hne Hname).
      apply (preserves_ClassRegister___getitem__ E _ same_walks_frame),
        register_classes_same_walks.
Qed.

Lemma get_runviewer_parser_walks E name w :
  walks (get_runviewer_parser E name w).2
  = if decide (runviewer_parser_registry w = ∅) then S (walks w) else walks w.
Proof.
  destruct (decide (runviewer_parser_registry w = ∅)) as [Hempty|Hne].
  - rewrite (get_runviewer_parser_empty _ _ _ Hempty). apply lookup_after_populate_walks.
  - destruct (runviewer_parser_registry w !! name) as [fullname|] eqn:Hname.
    + rewrite (get_runviewer_parser_present _ _ _ _ Hname).
      apply (preserves__import_class_by_fullname E _ same_walks_frame),
        register_classes_same_walks.
    + rewrite (get_runviewer_parser_absent _ _ _ Hne Hname).
      apply (preserves_ClassRegister___getitem__ E _ same_walks_frame),
        register_classes_same_walks.
Qed.

(** C7: a lookup calls [os.walk] once when its deferred mapping is empty at
    the call, and not at all when it is not. In a state the module's clients
    have reached from the initial state, once one of the deferred mappings is
    not empty, none is empty after any further calls, so that no later lookup
    walks again. *)
Theorem walk_only_when_empty (E : Env) :
  (∀ name w,
     walks (get_BLACS_tab E name w).2
     = if decide (BLACS_tab_registry w = ∅) then S (walks w) else walks w)
  ∧ (∀ name w,
     walks (get_runviewer_parser E name w).2
     = if decide (runviewer_parser_registry w = ∅) then S (walks w) else walks w)
  ∧ (∀ cs1 cs2 name,
     BLACS_tab_registry (run_calls E cs1 init_world) ≠ ∅
     ∨ runviewer_parser_registry (run_calls E cs1 init_world) ≠ ∅ →
     walks (get_BLACS_tab E name (run_calls E cs2 (run_calls E cs1 init_world))).2
     = walks (run_calls E cs2 (run_calls E cs1 init_world))
     ∧ walks (get_runviewer_parser E name (run_calls E cs2 (run_calls E cs1 init_world))).2
       = walks (run_calls E cs2 (run_calls E cs1 init_world))).
Proof.
  split_and!; [apply get_BLACS_tab_walks|apply get_runviewer_parser_walks|].
  intros cs1 cs2 name Hne.
  set (w1 := run_calls E cs1 init_world) in *.
  assert (Hal : aligned w1) by apply run_calls_aligned, aligned_init_world.
  assert (Hboth : BLACS_tab_registry w1 ≠ ∅ ∧ runviewer_parser_registry w1 ≠ ∅).
  { pose proof (aligned_empty_iff w1 Hal). tauto. }
  destruct Hboth as [Htab Hparser].
  destruct (run_calls_grow E cs2 w1) as [Hgtab Hgparser].
  rewrite get_BLACS_tab_walks, get_runviewer_parser_walks.
  destruct (decide (BLACS_tab_registry (run_calls E cs2 w1) = ∅)) as [Hempty|_].
  { by destruct (nonempty_grows _ _ Hgtab Htab). }
  destruct (decide (runviewer_parser_registry (run_calls E cs2 w1) = ∅)) as [Hempty|_].
  { by destruct (nonempty_grows _ _ Hgparser Hparser). }
  done.
Qed.

(** The first lookup walks; the third, of another function and another device,
    does not. *)
Lemma walk_only_when_empty_witness :
  walks (get_BLACS_tab (demo_env None) "FooDevice" init_world).2 = 1%nat
  ∧ walks (get_runviewer_parser (demo_env None) "Baz"
             (run_calls (demo_env None) [Call_get_BLACS_tab "BarDevice"]
                (run_calls (demo_env None) [Call_get_BLACS_tab "FooDevice"] init_world))).2
    = 1%nat.
Proof.
  destruct (walk_only_when_empty (demo_env None)) as (Htab & _ & Hlater).
  split.
  - rewrite Htab. reflexivity.
  - destruct (Hlater [Call_get_BLACS_tab "FooDevice"] [Call_get_BLACS_tab "BarDevice"] "Baz")
      as [_ Hparser].
    + left. vm_compute. discriminate.
    + rewrite Hparser. vm_compute. reflexivity.
Defined.

(** * Further properties of the module *)

(** ** Failures of the lookup in a decorator register *)

(** X1: when the import of the device's module fails, the lookup in a
    decorator register raises the exception of the import itself; for an
    ImportError (or a subclass) it first writes one line to [stderr] that names
    the module and the device, for any other exception it writes nothing; the
    register is not read. *)
Theorem getitem_import_failure (E : Env) (self : RegisterId) (name : string)
    (w : World) (e : exn) (w1 : World) :
  import_module E ("." +:+ name) (Some __name__) w = (Err e, w1) →
  ClassRegister___getitem__ E self name w
  = (Err e,
     if issubclass (exn_class e) ImportError
     then set_stderr
            (λ out, out ++
               ["Error importing module " +:+ __name__ +:+ "." +:+ name +:+
                " whilst looking for classes for device " +:+ name +:+ ". " +:+
                "Check that the module exists, is named correctly, and can be imported with no errors. " +:+
                "Full traceback follows:
"]) w1
     else w1).
Proof.
  intros Himp. unfold ClassRegister___getitem__.
  unfold bind at 1, try_except. rewrite Himp.
  by destruct (issubclass (exn_class e) ImportError).
Qed.

(** A module that does not exist, and a module whose code raises. *)
Lemma getitem_import_failure_witness :
  (∃ w1, ClassRegister___getitem__ (demo_env None) The_BLACS_tab "Nope" init_world
         = (Err (Raise ModuleNotFoundError "No module named 'labscript_devices.Nope'"), w1)
         ∧ List.length (stderr w1) = 1%nat)
  ∧ (∃ w1, ClassRegister___getitem__ broken_env The_BLACS_tab "Bad" init_world
           = (Err (Raise RuntimeError "boom"), w1)
           ∧ stderr w1 = []
           ∧ sys_modules w1 !! "labscript_devices.Bad" = None).
Proof.
  split.
  - eexists. split.
    + apply (getitem_import_failure (demo_env None) The_BLACS_tab "Nope" init_world
               (Raise ModuleNotFoundError "No module named 'labscript_devices.Nope'")
               init_world).
      vm_compute. reflexivity.
    + reflexivity.
  - eexists. split.
    + apply (getitem_import_failure broken_env The_BLACS_tab "Bad" init_world
               (Raise RuntimeError "boom")
               (import_module broken_env ".Bad" (Some __name__) init_world).2).
      vm_compute. reflexivity.
    + split; vm_compute; reflexivity.
Defined.

(** ** Registrations that cannot be resolved *)

(** X2: when a class object was registered in place of its path, which
    [register_classes] accepts, the lookup of the device raises the
    AttributeError of the missing [split] of the class, and changes nothing. *)
Theorem lookup_of_class_object_raises (E : Env) (name : string) (cls : nat) (o : ClassObj)
    (other : PyVal) (w : World) :
  classes w !! cls = Some o →
  get_BLACS_tab E name (register_classes name (VClass cls) other w).2
  = (Err (Raise AttributeError ("type object '" +:+ cls_name o +:+ "' has no attribute 'split'")),
     (register_classes name (VClass cls) other w).2)
  ∧ get_runviewer_parser E name (register_classes name other (VClass cls) w).2
    = (Err (Raise AttributeError ("type object '" +:+ cls_name o +:+ "' has no attribute 'split'")),
       (register_classes name other (VClass cls) w).2).
Proof.
  intros Hcls. split.
  - rewrite (get_BLACS_tab_present E name _ (VClass cls));
      [|rewrite register_classes_run; apply lookup_insert_eq].
    rewrite register_classes_run. simpl. unfold bind, get_class. simpl. by rewrite Hcls.
  - rewrite (get_runviewer_parser_present E name _ (VClass cls));
      [|rewrite register_classes_run; apply lookup_insert_eq].
    rewrite register_classes_run. simpl. unfold bind, get_class. simpl. by rewrite Hcls.
Qed.

Lemma lookup_of_class_object_raises_witness :
  (get_BLACS_tab (demo_env None) "FooDevice"
     (register_classes "FooDevice" (VClass 0) VNone
        (new_class "FooTab" "pkg.foo" init_world).2).2).1
  = Err (Raise AttributeError "type object 'FooTab' has no attribute 'split'").
Proof.
  destruct (lookup_of_class_object_raises (demo_env None) "FooDevice" 0
              (MkClass "FooTab" "pkg.foo" ∅) VNone
              (new_class "FooTab" "pkg.foo" init_world).2 eq_refl) as [Htab _].
  rewrite Htab. reflexivity.
Defined.

Lemma lstrip_count_dotted name :
  PyStr.startswith "." name = true →
  ∃ level rest, PyStr.lstrip_count "." name = (S level, rest).
Proof.
  destruct name as [|c name]; [done|].
  unfold PyStr.startswith.
  change (PyStr.strip_prefix "." (String c name))
    with (if Ascii.eqb "." c then Some name else None).
  change (PyStr.lstrip_count "." (String c name))
    with (if Ascii.eqb c "." then let '(n, r) := PyStr.lstrip_count "." name in (S n, r)
          else (O, String c name)).
  rewrite (Ascii.eqb_sym c "."). destruct (Ascii.eqb "." c); [|done].
  intros _. destruct (PyStr.lstrip_count "." name) as [n r]. by eexists _, _.
Qed.

(** X3: a registered path with no dot in it has the empty module path, and
    its resolution raises the ValueError of [importlib] for an empty module
    name; a path whose module part starts with a dot is a relative import
    without a package, and its resolution raises a TypeError. Neither changes
    the state. *)
Theorem import_class_by_fullname_malformed (E : Env) (fullname : string) (w : World) :
  (PyStr.has_char "." fullname = false →
   _import_class_by_fullname E (VStr fullname) w
   = (Err (Raise ValueError "Empty module name"), w))
  ∧ (PyStr.startswith "." (PyStr.join "." (PyStr.but_last (PyStr.split "." fullname))) = true →
     _import_class_by_fullname E (VStr fullname) w
     = (Err (Raise TypeError
               ("the 'package' argument is required to perform a relative import for '" +:+
                PyStr.join "." (PyStr.but_last (PyStr.split "." fullname)) +:+ "'")), w)).
Proof.
  destruct (split_last_is_Some "." fullname) as [class_name Hlast].
  split.
  - intros Hdot. rewrite (_import_class_by_fullname_run _ _ _ _ Hlast).
    rewrite (split_no_sep _ _ Hdot). reflexivity.
  - intros Hrel. rewrite (_import_class_by_fullname_run _ _ _ _ Hlast).
    unfold import_module.
    destruct (lstrip_count_dotted _ Hrel) as (level & rest & ->). reflexivity.
Qed.

Lemma import_class_by_fullname_malformed_witness :
  _import_class_by_fullname (demo_env None) (VStr "FooTab") init_world
  = (Err (Raise ValueError "Empty module name"), init_world)
  ∧ _import_class_by_fullname (demo_env None) (VStr "..foo.FooTab") init_world
    = (Err (Raise TypeError
              "the 'package' argument is required to perform a relative import for '..foo'"),
       init_world).
Proof.
  split.
  - apply (import_class_by_fullname_malformed (demo_env None) "FooTab" init_world).
    reflexivity.
  - apply (import_class_by_fullname_malformed (demo_env None) "..foo.FooTab" init_world).
    reflexivity.
Defined.

(** ** Registrations of different devices *)

(** X4: registrations of two different device names can be made in either
    order: the state is the same. *)
Theorem register_classes_commute (n1 n2 : string) (t1 p1 t2 p2 : PyVal) (w : World) :
  n1 ≠ n2 →
  (register_classes n1 t1 p1 ;;; register_classes n2 t2 p2) w
  = (register_classes n2 t2 p2 ;;; register_classes n1 t1 p1) w.
Proof.
  intros Hne. unfold bind. rewrite !register_classes_run.
  unfold set_runviewer_parser_registry, set_BLACS_tab_registry. simpl.
  f_equal. f_equal; by apply insert_insert_ne.
Qed.

Lemma register_classes_commute_witness :
  (register_classes "A" (VStr "pkg.a.Tab") VNone ;;;
   register_classes "B" VNone (VStr "pkg.b.Parser")) init_world
  = (register_classes "B" VNone (VStr "pkg.b.Parser") ;;;
     register_classes "A" (VStr "pkg.a.Tab") VNone) init_world.
Proof.
  apply (register_classes_commute "A" "B"). done.
Defined.

(** ** More on the decorator registers *)

Lemma get_class_related (R : relation World) (HP : PreOrder R) cls :
  preserves R (get_class cls).
Proof. intros w. unfold get_class. destruct (classes w !! cls); simpl; apply HP. Qed.

Lemma decorator_footprint_preorder self cls : PreOrder (decorator_footprint self cls).
Proof.
  split.
  - intros w. unfold decorator_footprint. split_and!; try done. by left.
  - intros w1 w2 w3 H12 H23. unfold decorator_footprint in *.
    destruct H12 as (? & ? & ? & ? & ? & ? & ? & ? & ? & Hc12 & Hk12).
    destruct H23 as (? & ? & ? & ? & ? & ? & ? & ? & ? & Hc23 & Hk23).
    split_and!; try congruence.
    + intros c Hc. by rewrite Hc23, Hc12.
    + intros k. destruct (Hk23 k) as [Hk|Hk]; [|by right].
      rewrite Hk. apply Hk12.
Qed.

Lemma decorator_footprint_stamp self cls o w :
  decorator_footprint self cls w (set_classes (λ h, <[cls := o]> h) w).
Proof.
  unfold decorator_footprint. simpl. split_and!; try done.
  - apply length_insert.
  - intros c Hc. by apply list_lookup_insert_ne.
  - intros k. by left.
Qed.

Lemma decorator_footprint_store self cls name w :
  decorator_footprint self cls w (set_register self (store_class name cls) w).
Proof.
  unfold decorator_footprint.
  destruct self; simpl; (split_and!; try done); intros k;
    (destruct (decide (name = k)) as [->|Hne];
     [right; apply lookup_insert_eq|left; by apply lookup_insert_ne]).
Qed.

Lemma ClassRegister___call___footprint E self cls :
  preserves (decorator_footprint self cls) (ClassRegister___call__ E self cls).
Proof.
  pose proof (decorator_footprint_preorder self cls) as HP.
  assert (Hset : ∀ attr v, preserves (decorator_footprint self cls) (setattr_class cls attr v)).
  { intros attr v. unfold setattr_class.
    apply (preserves_bind _ HP); [apply (get_class_related _ HP)|].
    intros o. apply preserves_modify. intros w0. apply decorator_footprint_stamp. }
  unfold ClassRegister___call__.
  apply (preserves_bind _ HP); [apply (get_class_related _ HP)|]. intros o.
  apply (preserves_bind _ HP).
  { unfold index_last. destruct (PyStr.last_item _);
      [apply (preserves_ret _ HP)|apply (preserves_raise _ HP)]. }
  intros name. apply (preserves_bind _ HP); [apply Hset|]. intros _.
  apply (preserves_bind _ HP).
  - destruct (decide _); [|apply (preserves_ret _ HP)].
    destruct (main_file E); [|apply (preserves_raise _ HP)].
    apply (preserves_bind _ HP); [apply Hset|]. intros _. apply (preserves_ret _ HP).
  - intros name'. apply (preserves_bind _ HP); [|intros _; apply (preserves_ret _ HP)].
    apply preserves_modify. intros w0. apply decorator_footprint_store.
Qed.

(** X5: whatever it returns or raises, [ClassRegister.__call__] on a class
    leaves [sys.modules], [stderr], the warnings, the walk counter, the
    deferred registries and the other decorator register as they were, keeps
    its own name and the number of class objects, changes no class object but
    the one it was given, and changes no entry of its own register except to
    set it to that class. *)
Theorem decorator_touches_only_its_class (E : Env) (self : RegisterId) (cls : nat) (w : World) :
  sys_modules (ClassRegister___call__ E self cls w).2 = sys_modules w
  ∧ stderr (ClassRegister___call__ E self cls w).2 = stderr w
  ∧ warnings (ClassRegister___call__ E self cls w).2 = warnings w
  ∧ walks (ClassRegister___call__ E self cls w).2 = walks w
  ∧ BLACS_tab_registry (ClassRegister___call__ E self cls w).2 = BLACS_tab_registry w
  ∧ runviewer_parser_registry (ClassRegister___call__ E self cls w).2
    = runviewer_parser_registry w
  ∧ get_register (other_register self) (ClassRegister___call__ E self cls w).2
    = get_register (other_register self) w
  ∧ instancename (get_register self (ClassRegister___call__ E self cls w).2)
    = instancename (get_register self w)
  ∧ List.length (classes (ClassRegister___call__ E self cls w).2) = List.length (classes w)
  ∧ (∀ c, c ≠ cls → classes (ClassRegister___call__ E self cls w).2 !! c = classes w !! c)
  ∧ (∀ k, registered_classes (get_register self (ClassRegister___call__ E self cls w).2) !! k
          = registered_classes (get_register self w) !! k
          ∨ registered_classes (get_register self (ClassRegister___call__ E self cls w).2) !! k
            = Some cls).
Proof. apply (ClassRegister___call___footprint E self cls w). Qed.

(** The run of [ClassRegister.__call__] on a class of an imported module. *)
Lemma ClassRegister___call___run E self cls o name w :
  classes w !! cls = Some o →
  PyStr.last_item (PyStr.split "." (cls_module o)) = Some name →
  name ≠ "__main__" →
  ClassRegister___call__ E self cls w
  = (Ok cls, set_register self (store_class name cls)
               (set_classes (λ h, <[cls := stamped o name]> h) w)).
Proof.
  intros Hcls Hname Hmain.
  unfold ClassRegister___call__.
  unfold bind at 1, get_class at 1. rewrite Hcls.
  unfold index_last. rewrite Hname.
  unfold bind at 1, ret at 1.
  unfold bind at 1. rewrite (setattr_class_run _ _ _ _ _ Hcls).
  by destruct (decide (name = "__main__")).
Qed.

Lemma classes_set_register self f w : classes (set_register self f w) = classes w.
Proof. by destruct self. Qed.

Lemma decorate_twice self name cls o w :
  set_register self (store_class name cls)
    (set_classes (λ h, <[cls := stamped (stamped o name) name]> h)
       (set_register self (store_class name cls)
          (set_classes (λ h, <[cls := stamped o name]> h) w)))
  = set_register self (store_class name cls)
      (set_classes (λ h, <[cls := stamped o name]> h) w).
Proof.
  destruct self; unfold set_register, set_classes, store_class, stamped; simpl;
    rewrite list_insert_insert_eq, !insert_insert_eq; reflexivity.
Qed.

(** X6: decorating a class a second time changes nothing: when the register
    has returned for a class, the same call in the state it left returns the
    class again and leaves that state. *)
Theorem decorating_again_changes_nothing (E : Env) (self : RegisterId) (cls : nat)
    (w w1 : World) (r : nat) :
  ClassRegister___call__ E self cls w = (Ok r, w1) →
  ClassRegister___call__ E self cls w1 = (Ok r, w1).
Proof.
  intros Hrun.
  destruct (classes w !! cls) as [o|] eqn:Hcls.
  2: { unfold ClassRegister___call__, bind, get_class in Hrun. by rewrite Hcls in Hrun. }
  assert (Hlt : (cls < List.length (classes w))%nat) by by eapply lookup_lt_Some.
  destruct (split_last_is_Some "." (cls_module o)) as [name Hname].
  destruct (decide (name = "__main__")) as [->|Hmain].
  - rewrite (ClassRegister___call___main E self cls o w Hcls Hname) in Hrun.
    destruct (main_file E) as [file|] eqn:Hfile; [|done].
    injection Hrun as <- <-.
    rewrite (ClassRegister___call___main E self cls
               (stamped o (os_path.splitext (os_path.basename file)).1)), Hfile.
    + f_equal. apply decorate_twice.
    + rewrite classes_set_register. simpl. by apply list_lookup_insert_eq.
    + exact Hname.
  - rewrite (ClassRegister___call___run E self cls o name w Hcls Hname Hmain) in Hrun.
    injection Hrun as <- <-.
    rewrite (ClassRegister___call___run E self cls (stamped o name) name).
    + f_equal. apply decorate_twice.
    + rewrite classes_set_register. simpl. by apply list_lookup_insert_eq.
    + exact Hname.
    + exact Hmain.
Qed.

Lemma decorating_again_changes_nothing_witness :
  ∃ w1,
    ClassRegister___call__ (demo_env None) The_runviewer_parser 0
      (new_class "BarParser" "labscript_devices.BarDevice" init_world).2 = (Ok 0%nat, w1)
    ∧ ClassRegister___call__ (demo_env None) The_runviewer_parser 0 w1 = (Ok 0%nat, w1).
Proof.
  eexists. split; [reflexivity|].
  apply (decorating_again_changes_nothing (demo_env None) The_runviewer_parser 0
           (new_class "BarParser" "labscript_devices.BarDevice" init_world).2).
  reflexivity.
Defined.

(** X7: a registration that fails for want of [__main__.__file__] has
    nevertheless set [labscript_device_class_name] of the class to [__main__];
    nothing else has changed. *)
Theorem failed_registration_stamps_main (E : Env) (self : RegisterId) (cls : nat)
    (o : ClassObj) (w : World) :
  classes w !! cls = Some o →
  PyStr.last_item (PyStr.split "." (cls_module o)) = Some "__main__" →
  main_file E = None →
  ∃ e, ClassRegister___call__ E self cls w
       = (Err e, set_classes (λ h, <[cls := stamped o "__main__"]> h) w)
       ∧ exn_class e = RuntimeError
       ∧ classes (ClassRegister___call__ E self cls w).2 !! cls = Some (stamped o "__main__")
       ∧ cls_attrs (stamped o "__main__") !! "labscript_device_class_name"
         = Some (VStr "__main__").
Proof.
  intros Hcls Hname Hfile.
  rewrite (ClassRegister___call___main E self cls o w Hcls Hname), Hfile.
  eexists. split_and!; [reflexivity|reflexivity| |apply lookup_insert_eq].
  simpl. apply list_lookup_insert_eq. by eapply lookup_lt_Some.
Qed.

Lemma failed_registration_stamps_main_witness :
  ∃ e w1,
    ClassRegister___call__ (demo_env None) The_BLACS_tab 0
      (new_class "Tab" "__main__" init_world).2 = (Err e, w1)
    ∧ classes w1 = [stamped (MkClass "Tab" "__main__" ∅) "__main__"]
    ∧ registered_classes (BLACS_tab w1) = ∅.
Proof.
  destruct (failed_registration_stamps_main (demo_env None) The_BLACS_tab 0
              (MkClass "Tab" "__main__" ∅) (new_class "Tab" "__main__" init_world).2)
    as (e & Hrun & _); [reflexivity|reflexivity|reflexivity|].
  exists e. eexists. split; [exact Hrun|]. by split.
Defined.

(** ** Modules stay loaded *)

Lemma sys_modules_grow_preorder : PreOrder sys_modules_grow.
Proof.
  split; [intros w; unfold sys_modules_grow; set_solver|].
  intros w1 w2 w3. unfold sys_modules_grow. set_solver.
Qed.

Lemma apply_decorator_sys_modules E d cls w :
  sys_modules (apply_decorator E d cls w).2 = sys_modules w.
Proof.
  destruct d; simpl; try reflexivity;
    apply (ClassRegister___call___footprint E _ cls w).
Qed.

Lemma apply_decorators_sys_modules E ds cls w :
  sys_modules (apply_decorators E ds cls w).2 = sys_modules w.
Proof.
  revert cls w. induction ds as [|d ds IH]; intros cls w; simpl; [done|].
  unfold bind. pose proof (apply_decorator_sys_modules E d cls w) as Hd.
  destruct (apply_decorator E d cls w) as [[cls'|e] w1]; simpl in *; [|done].
  by rewrite IH.
Qed.

Lemma exec_stmt_sys_modules_grow E modname s :
  preserves sys_modules_grow (exec_stmt E modname s).
Proof.
  intros w. unfold sys_modules_grow. destruct s as [cname ds|name tab parser|e]; simpl;
    [|done|done].
  unfold bind, new_class, gets, modify, ret. simpl.
  pose proof (apply_decorators_sys_modules E ds (List.length (classes w))
                (set_classes (λ h, h ++ [MkClass cname modname ∅]) w)) as Hds.
  destruct (apply_decorators E ds _ _) as [[cls|e] w1]; simpl in *; rewrite Hds; [|done].
  rewrite dom_insert. set_solver.
Qed.

Lemma exec_body_sys_modules_grow E modname body :
  preserves sys_modules_grow (exec_body E modname body).
Proof.
  induction body as [|s body IH]; simpl.
  - apply (preserves_ret _ sys_modules_grow_preorder).
  - apply (preserves_bind _ sys_modules_grow_preorder);
      [apply exec_stmt_sys_modules_grow|done].
Qed.

(** A module that has been loaded is in [sys.modules]. *)
Lemma load_module_Ok E name body w m w1 :
  load_module E name body w = (Ok m, w1) → m = name ∧ name ∈ dom (sys_modules w1).
Proof.
  unfold load_module, bind, gets, try_except, modify, ret, reraise.
  destruct (bool_decide (sys_modules w !! name = None)) eqn:Hfresh; simpl.
  - pose proof (exec_body_sys_modules_grow E name body
                  (set_sys_modules (λ sm, <[name := {[ "__name__" := VStr name ]}]> sm) w))
      as Hgrow.
    destruct (exec_body E name body _) as [[[]|e] w2]; simpl in *;
      [|by destruct (issubclass _ _)].
    intros [= <- <-]. split; [done|].
    apply Hgrow. simpl. rewrite dom_insert. set_solver.
  - apply bool_decide_eq_false in Hfresh.
    pose proof (exec_body_sys_modules_grow E name body w) as Hgrow.
    destruct (exec_body E name body w) as [[[]|e] w2]; simpl in *;
      [|by destruct (issubclass _ _)].
    intros [= <- <-]. split; [done|].
    apply Hgrow. apply elem_of_dom. by apply not_eq_None_Some.
Qed.

Lemma _find_and_load_Ok E name w m w1 :
  _find_and_load E name w = (Ok m, w1) → m = name ∧ name ∈ dom (sys_modules w1).
Proof.
  unfold _find_and_load, bind, gets. simpl.
  destruct (sys_modules w !! name) as [ns|] eqn:Hsys.
  - intros [= <- <-]. split; [done|]. apply elem_of_dom. by eexists.
  - destruct (importable E !! name) as [body|]; [apply load_module_Ok|done].
Qed.

Lemma _find_and_load_loaded E name w :
  name ∈ dom (sys_modules w) → _find_and_load E name w = (Ok name, w).
Proof.
  intros [ns Hns]%elem_of_dom. unfold _find_and_load, bind, gets. simpl. by rewrite Hns.
Qed.

(** An import that has returned, made again, finds the module loaded. *)
Lemma import_module_again E name package w m w1 :
  import_module E name package w = (Ok m, w1) →
  import_module E name package w1 = (Ok m, w1).
Proof.
  unfold import_module. destruct (PyStr.lstrip_count "." name) as [[|level] rest].
  - destruct (decide (name = "")); [done|].
    intros Hload. apply _find_and_load_Ok in Hload as [-> Hdom].
    by apply _find_and_load_loaded.
  - destruct package as [package|]; [|done].
    unfold bind, _resolve_name.
    destruct (List.length (PyStr.split "." package) <? S level)%nat; [done|].
    unfold ret.
    intros Hload. apply _find_and_load_Ok in Hload as [-> Hdom].
    by apply _find_and_load_loaded.
Qed.

(** ** Lookups made again *)

(** X8: a lookup in a decorator register that has returned a class returns
    it again when it is made again, and then changes nothing: the module is
    not imported a second time. *)
Theorem getitem_again (E : Env) (self : RegisterId) (name : string) (w w1 : World) (v : PyVal) :
  ClassRegister___getitem__ E self name w = (Ok v, w1) →
  ClassRegister___getitem__ E self name w1 = (Ok v, w1)
  ∧ ∃ cls, v = VClass cls ∧ registered_classes (get_register self w1) !! name = Some cls.
Proof.
  intros Hrun.
  destruct (import_module E ("." +:+ name) (Some __name__) w) as [[m|e] w'] eqn:Himp.
  - rewrite (ClassRegister___getitem___run _ _ _ _ _ _ Himp) in Hrun.
    destruct (registered_classes (get_register self w') !! name) as [cls|] eqn:Hreg; [|done].
    injection Hrun as <- <-.
    split; [|by exists cls].
    rewrite (ClassRegister___getitem___run _ _ _ _ _ _ (import_module_again _ _ _ _ _ _ Himp)).
    by rewrite Hreg.
  - unfold ClassRegister___getitem__, bind, try_except in Hrun. rewrite Himp in Hrun.
    by destruct (issubclass (exn_class e) ImportError).
Qed.

Lemma getitem_again_witness :
  ∃ w1,
    ClassRegister___getitem__ (demo_env None) The_BLACS_tab "BarDevice" init_world
    = (Ok (VClass 0), w1)
    ∧ ClassRegister___getitem__ (demo_env None) The_BLACS_tab "BarDevice" w1
      = (Ok (VClass 0), w1).
Proof.
  eexists. split; [vm_compute; reflexivity|].
  apply (getitem_again (demo_env None) The_BLACS_tab "BarDevice" init_world).
  vm_compute. reflexivity.
Defined.

(** X9: a resolution that has returned a value returns it again when it is
    made again, and then changes nothing: no module code runs a second time. *)
Theorem import_class_by_fullname_again (E : Env) (fullname : PyVal) (w w1 : World) (v : PyVal) :
  _import_class_by_fullname E fullname w = (Ok v, w1) →
  _import_class_by_fullname E fullname w1 = (Ok v, w1).
Proof.
  destruct fullname as [|fullname|cls].
  - done.
  - destruct (split_last_is_Some "." fullname) as [class_name Hlast].
    rewrite !(_import_class_by_fullname_run _ _ _ _ Hlast).
    destruct (import_module E _ None w) as [[m|e] w'] eqn:Himp; [|done].
    intros Hget.
    assert (w1 = w') as ->.
    { unfold getattr_module, bind, gets in Hget. simpl in Hget.
      destruct (_ ≫= _); unfold ret, raise in Hget; by simplify_eq. }
    by rewrite (import_module_again _ _ _ _ _ _ Himp).
  - simpl. unfold bind, get_class. by destruct (classes w !! cls).
Qed.

Lemma import_class_by_fullname_again_witness :
  ∃ w1,
    _import_class_by_fullname (demo_env None) (VStr "pkg.foo.FooTab") init_world
    = (Ok (VClass 0), w1)
    ∧ _import_class_by_fullname (demo_env None) (VStr "pkg.foo.FooTab") w1
      = (Ok (VClass 0), w1)
    ∧ List.length (classes w1) = 1%nat.
Proof.
  eexists. split; [vm_compute; reflexivity|]. split; [|reflexivity].
  apply (import_class_by_fullname_again (demo_env None) (VStr "pkg.foo.FooTab") init_world).
  vm_compute. reflexivity.
Defined.

(** ** From the decorator to the lookup *)

Lemma startswith_has_char s : PyStr.startswith "." s = true → PyStr.has_char "." s = true.
Proof.
  destruct s as [|c s]; [done|].
  unfold PyStr.startswith.
  change (PyStr.strip_prefix "." (String c s)) with (if Ascii.eqb "." c then Some s else None).
  rewrite has_char_cons. by destruct (Ascii.eqb "." c).
Qed.

Lemma split___name__ : PyStr.split "." __name__ = [__name__].
Proof. reflexivity. Qed.

(** The import of the module of a device that is loaded already. *)
Lemma import_module_relative_loaded E name w :
  name ≠ "" → PyStr.has_char "." name = false →
  (__name__ +:+ "." +:+ name) ∈ dom (sys_modules w) →
  import_module E ("." +:+ name) (Some __name__) w = (Ok (__name__ +:+ "." +:+ name), w).
Proof.
  intros Hne Hdot Hloaded.
  assert (Hstart : PyStr.startswith "." name = false).
  { destruct (PyStr.startswith "." name) eqn:Hs; [|done].
    by rewrite (startswith_has_char _ Hs) in Hdot. }
  unfold import_module.
  change ("." +:+ name) with (String "." name).
  change (PyStr.lstrip_count "." (String "." name))
    with (let '(n, r) := PyStr.lstrip_count "." name in (S n, r)).
  rewrite (lstrip_count_not_dotted _ Hstart).
  unfold bind, _resolve_name. rewrite split___name__. simpl.
  destruct (decide (name = "")); [done|].
  unfold ret. by apply _find_and_load_loaded.
Qed.

(** X10: a class that the decorator has registered, from a module of the
    package that is loaded, is what the lookup of the module's short name in
    the same register returns, and the lookup changes nothing. *)
Theorem decorated_class_is_found (E : Env) (self : RegisterId) (cls : nat) (o : ClassObj)
    (name : string) (w : World) :
  classes w !! cls = Some o →
  PyStr.last_item (PyStr.split "." (cls_module o)) = Some name →
  name ≠ "__main__" → name ≠ "" →
  (__name__ +:+ "." +:+ name) ∈ dom (sys_modules w) →
  ∃ w', ClassRegister___call__ E self cls w = (Ok cls, w')
        ∧ ClassRegister___getitem__ E self name w' = (Ok (VClass cls), w').
Proof.
  intros Hcls Hname Hmain Hne Hloaded.
  assert (Hdot : PyStr.has_char "." name = false).
  { eapply split_pieces_no_sep, last_item_elem_of, Hname. }
  eexists. split; [by apply (ClassRegister___call___run E self cls o name w)|].
  erewrite ClassRegister___getitem___run.
  2: { apply import_module_relative_loaded; [done|done|]. by destruct self. }
  destruct self; simpl; by rewrite lookup_insert_eq.
Qed.

Lemma decorated_class_is_found_witness :
  ∃ w',
    ClassRegister___call__ (demo_env None) The_runviewer_parser 1
      (new_class "BarParser" "labscript_devices.BarDevice"
         (get_BLACS_tab (demo_env None) "BarDevice" init_world).2).2 = (Ok 1%nat, w')
    ∧ ClassRegister___getitem__ (demo_env None) The_runviewer_parser "BarDevice" w'
      = (Ok (VClass 1), w').
Proof.
  apply (decorated_class_is_found (demo_env None) The_runviewer_parser 1
           (MkClass "BarParser" "labscript_devices.BarDevice" ∅) "BarDevice").
  - reflexivity.
  - reflexivity.
  - done.
  - done.
  - apply elem_of_dom. eexists. vm_compute. reflexivity.
Defined.

(** X11: for a device that has no deferred entry while the deferred registry
    is not empty, whose module is loaded and has a class in the decorator
    register, the lookup function returns that class and changes nothing: it
    neither walks nor imports. *)
Theorem lookup_falls_back_to_decorated (E : Env) (name : string) (cls : nat) (w : World) :
  name ≠ "" → PyStr.has_char "." name = false →
  (__name__ +:+ "." +:+ name) ∈ dom (sys_modules w) →
  (BLACS_tab_registry w ≠ ∅ → BLACS_tab_registry w !! name = None →
   registered_classes (BLACS_tab w) !! name = Some cls →
   get_BLACS_tab E name w = (Ok (VClass cls), w))
  ∧ (runviewer_parser_registry w ≠ ∅ → runviewer_parser_registry w !! name = None →
     registered_classes (runviewer_parser w) !! name = Some cls →
     get_runviewer_parser E name w = (Ok (VClass cls), w)).
Proof.
  intros Hne Hdot Hloaded.
  pose proof (import_module_relative_loaded E name w Hne Hdot Hloaded) as Himp.
  split; intros Hreg Habsent Hcls.
  - rewrite (get_BLACS_tab_absent _ _ _ Hreg Habsent).
    rewrite (ClassRegister___getitem___run _ The_BLACS_tab _ _ _ _ Himp). simpl.
    by rewrite Hcls.
  - rewrite (get_runviewer_parser_absent _ _ _ Hreg Habsent).
    rewrite (ClassRegister___getitem___run _ The_runviewer_parser _ _ _ _ Himp). simpl.
    by rewrite Hcls.
Qed.

Lemma lookup_falls_back_to_decorated_witness :
  get_BLACS_tab (demo_env None) "BarDevice"
    (get_BLACS_tab (demo_env None) "BarDevice" init_world).2
  = (Ok (VClass 0), (get_BLACS_tab (demo_env None) "BarDevice" init_world).2).
Proof.
  destruct (lookup_falls_back_to_decorated (demo_env None) "BarDevice" 0
              (get_BLACS_tab (demo_env None) "BarDevice" init_world).2) as [Htab _].
  - done.
  - reflexivity.
  - apply elem_of_dom. eexists. vm_compute. reflexivity.
  - apply Htab.
    + vm_compute. discriminate.
    + vm_compute. reflexivity.
    + vm_compute. reflexivity.
Defined.

(** ** Nothing is ever taken out of a registry *)

Lemma registers_grow_frame : Frame registers_grow.
Proof.
  split; unfold registers_grow; try (intros f w []; reflexivity).
  - split; [by intros w self|].
    intros w1 w2 w3 H12 H23 self. specialize (H12 self). specialize (H23 self). set_solver.
  - intros [] name cls w []; simpl; try reflexivity; rewrite dom_insert; set_solver.
Qed.

Lemma register_classes_registers_grow name tab parser :
  preserves registers_grow (register_classes name tab parser).
Proof. by intros w []. Qed.

(** X12: whatever the module's clients call, in whatever order, and whether
    the calls return or raise, every device name that one of the two decorator
    registers or one of the two deferred registries holds is still held by it
    afterwards. *)
Theorem registries_never_shrink (E : Env) (cs : list Call) (w : World) :
  dom (registered_classes (BLACS_tab w))
    ⊆ dom (registered_classes (BLACS_tab (run_calls E cs w)))
  ∧ dom (registered_classes (runviewer_parser w))
    ⊆ dom (registered_classes (runviewer_parser (run_calls E cs w)))
  ∧ dom (BLACS_tab_registry w) ⊆ dom (BLACS_tab_registry (run_calls E cs w))
  ∧ dom (runviewer_parser_registry w) ⊆ dom (runviewer_parser_registry (run_calls E cs w)).
Proof.
  assert (Hreg : registers_grow w (run_calls E cs w)).
  { apply (run_calls_related E registers_grow registers_grow_frame).
    - apply register_classes_registers_grow.
    - by intros w0 []. }
  destruct (run_calls_grow E cs w) as [Htab Hparser].
  split_and!; [apply (Hreg The_BLACS_tab)|apply (Hreg The_runviewer_parser)|done|done].
Qed.

(** ** What the populator registers *)

Lemma for_each_Ok_elem {A} (R : relation World) (HP : PreOrder R) (f : A → M unit) l x w w' :
  (∀ y, preserves R (f y)) →
  for_each f l w = (Ok tt, w') → x ∈ l →
  ∃ w1 w2, f x w1 = (Ok tt, w2) ∧ R w2 w'.
Proof.
  intros Hf. revert w. induction l as [|y l IH]; intros w Hrun Hx.
  - by apply elem_of_nil in Hx.
  - simpl in Hrun. unfold bind in Hrun.
    destruct (f y w) as [[[]|e] wy] eqn:Hy; [|done].
    apply elem_of_cons in Hx as [->|Hx].
    + exists w, wy. split; [done|].
      pose proof (preserves_for_each R HP f l Hf wy) as Hrest.
      by rewrite Hrun in Hrest.
    + by apply (IH wy).
Qed.

Lemma exec_body_registers E modname body name tab parser w w' :
  exec_body E modname body w = (Ok tt, w') →
  SRegisterClasses name tab parser ∈ body →
  name ∈ dom (BLACS_tab_registry w') ∧ name ∈ dom (runviewer_parser_registry w').
Proof.
  revert w. induction body as [|s body IH]; intros w Hrun Hin.
  - by apply elem_of_nil in Hin.
  - simpl in Hrun. unfold bind in Hrun.
    destruct (exec_stmt E modname s w) as [[[]|e] ws] eqn:Hs; [|done].
    apply elem_of_cons in Hin as [<-|Hin]; [|by apply (IH ws)].
    simpl in Hs. rewrite register_classes_run in Hs. injection Hs as <-.
    pose proof (preserves_exec_body E registries_grow registries_grow_frame
                  register_classes_grow modname body) as Hgrow.
    specialize (Hgrow (set_runviewer_parser_registry (λ d, <[name := parser]> d)
                         (set_BLACS_tab_registry (λ d, <[name := tab]> d) w))).
    rewrite Hrun in Hgrow. destruct Hgrow as [Htab Hparser]. simpl in Htab, Hparser.
    split; [apply Htab|apply Hparser]; apply elem_of_dom; rewrite lookup_insert_eq;
      by eexists.
Qed.

Lemma load_module_registers E modname body name tab parser w m w' :
  load_module E modname body w = (Ok m, w') →
  SRegisterClasses name tab parser ∈ body →
  name ∈ dom (BLACS_tab_registry w') ∧ name ∈ dom (runviewer_parser_registry w').
Proof.
  unfold load_module, bind, gets, try_except, modify, ret, reraise. simpl.
  destruct (bool_decide (sys_modules w !! modname = None)); simpl.
  - destruct (exec_body E modname body _) as [[[]|e] w2] eqn:Hbody; simpl;
      [|by destruct (issubclass _ _)].
    intros [= <- <-]. by eapply exec_body_registers.
  - destruct (exec_body E modname body _) as [[[]|e] w2] eqn:Hbody; simpl;
      [|by destruct (issubclass _ _)].
    intros [= <- <-]. by eapply exec_body_registers.
Qed.

(** X13: when [populate_registry] returns, every device name that a
    [register_classes.py] found by the walk registers is a key of both
    deferred registries. *)
Theorem populate_registers_every_device (E : Env) (w w' : World) (entry : WalkEntry)
    (name : string) (tab parser : PyVal) :
  populate_registry E w = (Ok tt, w') →
  entry ∈ os_walk E →
  "register_classes.py" ∈ walk_filenames entry →
  SRegisterClasses name tab parser ∈ walk_register_classes entry →
  name ∈ dom (BLACS_tab_registry w') ∧ name ∈ dom (runviewer_parser_registry w').
Proof.
  intros Hrun Hentry Hfile Hreg.
  unfold populate_registry, bind, modify in Hrun. simpl in Hrun.
  destruct (for_each (populate_folder E) (os_walk E) (set_walks S w))
    as [[[]|e] w0] eqn:Hloop; [|done].
  injection Hrun as <-.
  destruct (for_each_Ok_elem registries_grow (frame_preorder _ registries_grow_frame)
              (populate_folder E) (os_walk E) entry _ _
              (λ y, preserves_populate_folder E registries_grow registries_grow_frame
                      register_classes_grow y) Hloop Hentry)
    as (w1 & w2 & Hfolder & Htab & Hparser).
  unfold populate_folder in Hfolder.
  rewrite bool_decide_eq_true_2 in Hfolder by done.
  destruct (decide (labscript_suite_install_dir E = "")); [done|].
  destruct (PyStr.split_once _ _) as [[pre relfolder]|]; [|done].
  unfold bind at 1 in Hfolder.
  destruct (load_module E _ _ w1) as [[m|e] w3] eqn:Hload; [|done].
  injection Hfolder as <-.
  destruct (load_module_registers _ _ _ _ _ _ _ _ _ Hload Hreg) as [Hn1 Hn2].
  set_solver.
Qed.

Lemma populate_registers_every_device_witness :
  "FooDevice" ∈ dom (BLACS_tab_registry (populate_registry (demo_env None) init_world).2)
  ∧ "FooDevice" ∈ dom (runviewer_parser_registry
                         (populate_registry (demo_env None) init_world).2).
Proof.
  apply (populate_registers_every_device (demo_env None) init_world _
           (MkWalk "/opt/suite/labscript_devices/FooDevice" ["register_classes.py"]
              [SRegisterClasses "FooDevice" (VStr "pkg.foo.FooTab") VNone])
           "FooDevice" (VStr "pkg.foo.FooTab") VNone).
  - vm_compute. reflexivity.
  - simpl. set_solver.
  - simpl. set_solver.
  - simpl. set_solver.
Defined.

(** ** Folders without a [register_classes.py] *)

Lemma populate_folder_skips E entry w :
  has_register_classes entry = false → populate_folder E entry w = (Ok tt, w).
Proof. unfold has_register_classes, populate_folder. by intros ->. Qed.

(** X14: the populator passes over the folders that have no file named
    [register_classes.py]: its loop does the same on the walk without them;
    when no folder has one it loads nothing, and only the walk is counted. *)
Theorem populate_skips_other_folders (E : Env) (l : list WalkEntry) (w : World) :
  for_each (populate_folder E) l w
  = for_each (populate_folder E) (filter (λ entry, has_register_classes entry = true) l) w
  ∧ (Forall (λ entry, has_register_classes entry = false) (os_walk E) →
     populate_registry E w = (Ok tt, set_walks S w)).
Proof.
  split.
  - revert w. induction l as [|entry l IH]; intros w; [done|].
    destruct (has_register_classes entry) eqn:Hfile.
    + rewrite filter_cons_True by done. simpl. unfold bind.
      destruct (populate_folder E entry w) as [[[]|e] w1]; [apply IH|done].
    + rewrite filter_cons_False by (rewrite Hfile; done).
      simpl. unfold bind. rewrite (populate_folder_skips _ _ _ Hfile). apply IH.
  - intros Hnone. unfold populate_registry, bind, modify. simpl.
    generalize (set_walks S w).
    induction Hnone as [|entry rest Hentry _ IH]; intros w0; [done|].
    simpl. unfold bind. by rewrite (populate_folder_skips _ _ _ Hentry).
Qed.

Lemma populate_skips_other_folders_witness :
  populate_registry bare_env init_world = (Ok tt, set_walks S init_world).
Proof.
  apply (populate_skips_other_folders bare_env [] init_world).
  repeat constructor.
Defined.

(** ** Lookups while nothing is registered *)

Lemma run_call_lookup_state E c w :
  is_lookup c = true →
  (run_call E c w).2
  = match c with
    | Call_get_runviewer_parser name => (get_runviewer_parser E name w).2
    | Call_get_BLACS_tab name => (get_BLACS_tab E name w).2
    | _ => w
    end.
Proof.
  destruct c; try done; intros _; simpl; unfold bind.
  - by destruct (get_BLACS_tab E name w) as [[v|e] w1].
  - by destruct (get_runviewer_parser E name w) as [[v|e] w1].
Qed.

Lemma dom_subseteq_empty (d d' : gmap string PyVal) : dom d ⊆ dom d' → d' = ∅ → d = ∅.
Proof. intros Hsub ->. apply dom_empty_iff_L. rewrite dom_empty_L in Hsub. set_solver. Qed.

(** X15: as long as the deferred registries stay empty, every lookup walks
    the folder again: after any sequence of lookups that leaves both
    registries empty, the number of walks has grown by the number of lookups. *)
Theorem lookups_walk_while_empty (E : Env) (cs : list Call) (w : World) :
  forallb is_lookup cs = true →
  BLACS_tab_registry (run_calls E cs w) = ∅ →
  runviewer_parser_registry (run_calls E cs w) = ∅ →
  walks (run_calls E cs w) = (walks w + List.length cs)%nat.
Proof.
  revert w. induction cs as [|c cs IH]; intros w Hcs Htab Hparser; simpl in *; [lia|].
  apply andb_true_iff in Hcs as [Hc Hcs].
  rewrite (IH _ Hcs Htab Hparser).
  destruct (run_calls_grow E cs (run_call E c w).2) as [Hgt Hgp].
  pose proof (dom_subseteq_empty _ _ Hgt Htab) as Htab1.
  pose proof (dom_subseteq_empty _ _ Hgp Hparser) as Hparser1.
  destruct (preserves_run_call E registries_grow registries_grow_frame
              register_classes_grow
              (λ w0, conj (reflexivity _) (reflexivity _)) c w) as [Hgt0 Hgp0].
  pose proof (dom_subseteq_empty _ _ Hgt0 Htab1) as Htab0.
  pose proof (dom_subseteq_empty _ _ Hgp0 Hparser1) as Hparser0.
  rewrite (run_call_lookup_state E c w Hc).
  destruct c; try done.
  - rewrite get_BLACS_tab_walks. destruct (decide _); [lia|done].
  - rewrite get_runviewer_parser_walks. destruct (decide _); [lia|done].
Qed.

Lemma lookups_walk_while_empty_witness :
  walks (run_calls bare_env
           [Call_get_BLACS_tab "BarDevice"; Call_get_runviewer_parser "BarDevice";
            Call_get_BLACS_tab "BarDevice"] init_world) = 3%nat.
Proof.
  apply (lookups_walk_while_empty bare_env
           [Call_get_BLACS_tab "BarDevice"; Call_get_runviewer_parser "BarDevice";
            Call_get_BLACS_tab "BarDevice"] init_world).
  - reflexivity.
  - vm_compute. reflexivity.
  - vm_compute. reflexivity.
Defined.

(** ** A [register_classes.py] that fails *)



